(** * ginkgo: the middleware pipeline (token extraction, authentication,
      authorization, error classification, panic recovery)

    A shallow embedding of [extract_token.go], of the middleware provider
    (in [logging_middleware.go]) and of [error_middleware.go].  A request is
    a [Context] value threaded through the handlers; a handler is a function
    from the context it receives to the context it leaves and the panic it
    raised, if any.  The remainder of a handler chain (what [ctx.Next()]
    runs) is an argument of each middleware.

    Logger calls write to the logger only; they do not touch the context or
    the response and are left out of the embedding. *)

From Stdlib Require Import ZArith Ascii String List Lia Bool.
From stdpp Require Import base option gmap strings fin_maps pretty.

Local Set Warnings "-register-all".
Local Open Scope Z_scope.
Local Open Scope string_scope.
Local Open Scope list_scope.

(* ===================================================================== *)
(** ** Go library functions used by the package *)
(* ===================================================================== *)

(** Package [strings], on Go strings seen as byte sequences. *)
Module GoStrings.

(** [strings.Split(s, sep)] for a one-byte separator: the pieces between
    consecutive separators, empty pieces included; never an empty slice. *)
Fixpoint Split (s : string) (sep : ascii) : list string :=
  match s with
  | EmptyString => [EmptyString]
  | String c r =>
      if Ascii.eqb c sep then EmptyString :: Split r sep
      else match Split r sep with
           | piece :: pieces => String c piece :: pieces
           | [] => [String c EmptyString]
           end
  end.

(** Number of occurrences of a byte, [strings.Count] for one byte. *)
Fixpoint Count (s : string) (sep : ascii) : nat :=
  match s with
  | EmptyString => O
  | String c r => if Ascii.eqb c sep then S (Count r sep) else Count r sep
  end.

(** ['A' <= c && c <= 'Z' ? c + ('a' - 'A') : c]. *)
Definition lowerByte (c : ascii) : ascii :=
  let n := N_of_ascii c in
  if ((65 <=? n) && (n <=? 90))%N then ascii_of_N (n + 32) else c.

(** [strings.ToLower].  On a string of ASCII bytes this is Go's function.
    A string with a byte above 0x7F takes Go's rune-wise path
    ([unicode.ToLower] on every rune): no rune outside ASCII lower-cases to
    one of the letters of "bearer", so there, as here, the result differs
    from "bearer", which is all the package asks of it. *)
Fixpoint ToLower (s : string) : string :=
  match s with
  | EmptyString => EmptyString
  | String c r => String (lowerByte c) (ToLower r)
  end.

(** [strings.Contains(s, substr)]: [substr] starts at some index of [s]. *)
Fixpoint Contains (s substr : string) : bool :=
  String.prefix substr s
  || match s with
     | EmptyString => false
     | String _ r => Contains r substr
     end.

End GoStrings.

(** Package [crypto/subtle]; a byte is an integer in [0, 256). *)
Module Subtle.

Definition isByte (a : Z) : Prop := 0 <= a < 256.

Definition byte (c : ascii) : Z := Z.of_N (N_of_ascii c).

Definition bytes (s : string) : list Z := map byte (list_ascii_of_string s).

(** [int((uint32(x^y) - 1) >> 31)]: the subtraction wraps at 32 bits. *)
Definition ConstantTimeByteEq (x y : Z) : Z :=
  Z.shiftr ((Z.lxor x y - 1) mod 2 ^ 32) 31.

(** The loop [v |= x[i] ^ y[i]] over two slices of equal length. *)
Fixpoint accumulate (v : Z) (x y : list Z) : Z :=
  match x, y with
  | a :: x', b :: y' => accumulate (Z.lor v (Z.lxor a b)) x' y'
  | _, _ => v
  end.

Definition ConstantTimeCompare (x y : list Z) : Z :=
  if negb (Nat.eqb (List.length x) (List.length y)) then 0
  else ConstantTimeByteEq (accumulate 0 x y) 0.

End Subtle.

(* ===================================================================== *)
(** ** errors.go *)
(* ===================================================================== *)

Definition ErrMissingToken : string := "missing token".
Definition ErrInvalidToken : string := "invalid token".
Definition ErrUserNotFound : string := "user not found".
Definition ErrNoPermission : string := "user does not have the required permission".
Definition ErrTypeUnauthorized : string := "Unauthorized".
Definition ErrTypeForbidden : string := "Forbidden".

(* ===================================================================== *)
(** ** extract_token.go: the header check *)
(* ===================================================================== *)

Definition validateAndExtractBearerToken (bearerToken : string) : bool * string :=
  let splits := GoStrings.Split bearerToken " "%char in
  if negb (Nat.eqb (List.length splits) 2) then (false, "")
  else
    let tokenType := GoStrings.ToLower (nth 0 splits "") in
    let ok := Z.eqb (Subtle.ConstantTimeCompare (Subtle.bytes tokenType)
                                                (Subtle.bytes "bearer")) 1 in
    if negb ok then (false, "")
    else (true, nth 1 splits "").

(* ===================================================================== *)
(** ** Values, typed application errors and Go errors *)
(* ===================================================================== *)

(** Go's [any], as far as the package inspects stored values: it only asks
    whether a value is a string. *)
Inductive any : Type :=
| AnyNil
| AnyString (s : string)
| AnyInt (n : Z)
| AnyBool (b : bool).

(** Modelled from the spec: the typed application error of module [ungerr],
    which is not under src/.  The spec's data model gives it a status code, a
    user message (the text returned by [Error()]) and optional field-level
    validation messages. *)
Record AppError : Type := mkAppError {
  HttpStatus : Z;
  ErrorText : string;
  Details : list string
}.

(** What the type switch of [constructAppError] and the comparison with
    [io.EOF] can tell about an error that is neither an [ungerr.AppError] nor
    an eris error. *)
Inductive errKind : Type :=
| KValidationErrors (fieldErrors : list string)   (* validator.ValidationErrors; each entry's Error() *)
| KSyntaxError                                    (* *json.SyntaxError *)
| KUnmarshalTypeError (Field : string)            (* *json.UnmarshalTypeError *)
| KEOF                                            (* the value io.EOF *)
| KOther.                                         (* any other dynamic type *)

(** A non-nil Go [error].  [ErisRoot] and [ErisWrap] are eris's two error
    types (a root error, possibly holding an external error, and a wrapping
    link).  [Foreign] is any other error, given by its dynamic type, the
    text of its [Error()] and the result of its [Unwrap()] method when it has
    one. *)
Inductive error : Type :=
| AppErr (e : AppError)
| ErisRoot (msg : string) (ext : option error)
| ErisWrap (msg : string) (err : error)
| Foreign (kind : errKind) (text : string) (unwrap : option error).

Definition io_EOF : error := Foreign KEOF "EOF" None.
Definition errors_New (text : string) : error := Foreign KOther text None.
Definition json_SyntaxError (msg : string) : error := Foreign KSyntaxError msg None.
Definition json_UnmarshalTypeError (text Field : string) : error :=
  Foreign (KUnmarshalTypeError Field) text None.
Definition validator_ValidationErrors (text : string) (fieldErrors : list string) : error :=
  Foreign (KValidationErrors fieldErrors) text None.

(** [err.Error()].  An eris error prints its chain outermost first, the
    pieces separated by ": ", the external error last. *)
Fixpoint Error (e : error) : string :=
  match e with
  | AppErr a => ErrorText a
  | ErisRoot msg ext =>
      match ext with
      | None => msg
      | Some x => if String.eqb msg "" then Error x else msg +:+ ": " +:+ Error x
      end
  | ErisWrap msg err => msg +:+ ": " +:+ Error err
  | Foreign _ text _ => text
  end.

(** The dynamic type of an error as the type switch sees it: an application
    error or an eris error matches none of its cases. *)
Definition errKindOf (e : error) : errKind :=
  match e with
  | Foreign kind _ _ => kind
  | AppErr _ | ErisRoot _ _ | ErisWrap _ _ => KOther
  end.

(** Package [eris]: errors wrapped with diagnostic context. *)
Module Eris.

(** [eris.Errorf(format, args...)], the message already formatted: a root
    error with no external error inside. *)
Definition Errorf (msg : string) : error := ErisRoot msg None.

(** [eris.Wrap(err, msg)]: an eris error gets one more link; any other
    error becomes the external error of a new root. *)
Definition Wrap (err : error) (msg : string) : error :=
  match err with
  | ErisRoot _ _ | ErisWrap _ _ => ErisWrap msg err
  | AppErr _ | Foreign _ _ _ => ErisRoot msg (Some err)
  end.

(** [eris.Unwrap(err)]: the result of the error's [Unwrap] method, nil when
    it has none.  A root error returns its external error (nil when it was
    made by [Errorf] or [New]); a link returns the error it wraps. *)
Definition Unwrap (err : error) : option error :=
  match err with
  | AppErr _ => None
  | ErisRoot _ ext => ext
  | ErisWrap _ inner => Some inner
  | Foreign _ _ unwrap => unwrap
  end.

End Eris.

(** Modelled from the spec: the constructors of module [ungerr], which is
    not under src/.  Statuses and messages are those of the spec's sections
    4.2 to 4.5 and 6 (400, 401, 403, 422, 500), which the package's tests
    assert as well.  The spec fixes neither the text of the masked
    internal-fault error nor the way field errors are joined: both are
    arguments. *)
Module Ungerr.

Definition BadRequestError (msg : string) : AppError := mkAppError 400 msg [].
Definition UnauthorizedError (msg : string) : AppError := mkAppError 401 msg [].
Definition ForbiddenError (msg : string) : AppError := mkAppError 403 msg [].
Definition NotFoundError (msg : string) : AppError := mkAppError 404 msg [].

Definition ValidationError (joinFieldErrors : list string -> string)
                           (errors : list string) : AppError :=
  mkAppError 422 (joinFieldErrors errors) errors.

Definition InternalServerError (maskedMessage : string) : AppError :=
  mkAppError 500 maskedMessage [].

End Ungerr.

(* ===================================================================== *)
(** ** The response envelope (NewErrorResponse) *)
(* ===================================================================== *)

Record Pagination : Type := mkPagination {
  TotalData : Z;
  CurrentPage : Z;
  TotalPages : Z;
  HasNextPage : bool;
  HasPrevPage : bool
}.

Definition zeroPagination : Pagination := mkPagination 0 0 0 false false.

Record JSONResponse : Type := mkJSONResponse {
  Message : string;
  Data : any;
  Errors : option error;
  ResponsePagination : Pagination
}.

Definition NewErrorResponse (err : error) : JSONResponse :=
  {| Message := Error err;
     Data := AnyNil;
     Errors := Some err;
     ResponsePagination := zeroPagination |}.

(** [Pagination.IsZero]. *)
Definition IsZero (p : Pagination) : bool :=
  Z.eqb (TotalData p) 0 && Z.eqb (CurrentPage p) 0 && Z.eqb (TotalPages p) 0
  && negb (HasNextPage p) && negb (HasPrevPage p).

Definition NewResponse (message : string) : JSONResponse :=
  {| Message := message;
     Data := AnyNil;
     Errors := None;
     ResponsePagination := zeroPagination |}.

Definition WithData (jr : JSONResponse) (data : any) : JSONResponse :=
  {| Message := Message jr;
     Data := data;
     Errors := Errors jr;
     ResponsePagination := ResponsePagination jr |}.

(** The error given may be nil. *)
Definition WithError (jr : JSONResponse) (err : option error) : JSONResponse :=
  {| Message := Message jr;
     Data := Data jr;
     Errors := err;
     ResponsePagination := ResponsePagination jr |}.

Record QueryOptions : Type := mkQueryOptions {
  Page : Z;
  Limit : Z
}.

Section Paging.

(** [int(math.Ceil(float64(totalData) / float64(limit)))]: the page count is
    computed in floating point, which the embedding does not interpret; it is
    an argument, and what is proved holds whatever it computes. *)
Variable ceilQuotient : Z -> Z -> Z.

Definition WithPagination (jr : JSONResponse) (queryOptions : QueryOptions)
                          (totalData : Z) : JSONResponse :=
  if Z.leb (Limit queryOptions) 0 then jr
  else
    let totalPages := ceilQuotient totalData (Limit queryOptions) in
    {| Message := Message jr;
       Data := Data jr;
       Errors := Errors jr;
       ResponsePagination :=
         {| TotalData := totalData;
            CurrentPage := Page queryOptions;
            TotalPages := totalPages;
            HasNextPage := Z.ltb (Page queryOptions) totalPages;
            HasPrevPage := Z.ltb 1 (Page queryOptions) |} |}.

End Paging.

(* ===================================================================== *)
(** ** The request context (gin.Context) *)
(* ===================================================================== *)

(** Package [gin], at the level of the calls the package makes on a
    [*gin.Context].  The response writer is the flag [Written()] together
    with the list of responses handed to it, in order. *)
Module Gin.

Record Context : Type := mkContext {
  Header : gmap string (list string);      (* Request.Header *)
  Keys : gmap string any;                  (* the request-scoped attribute store *)
  Errors : list error;                     (* the request-scoped error list *)
  aborted : bool;                          (* set by Abort *)
  written : bool;                          (* Writer.Written() *)
  responses : list (Z * JSONResponse)      (* what was written, status first *)
}.

Definition emptyContext : Context := mkContext ∅ ∅ [] false false [].

(** [ctx.GetHeader(key)]: the first value of the header, "" when absent. *)
Definition GetHeader (c : Context) (key : string) : string :=
  match Header c !! key with
  | Some (v :: _) => v
  | _ => ""
  end.

(** [ctx.Set(key, value)]. *)
Definition Set_ (c : Context) (key : string) (value : any) : Context :=
  mkContext (Header c) (<[key := value]> (Keys c)) (Errors c)
            (aborted c) (written c) (responses c).

(** [ctx.GetString(key)]: the stored string, "" when the key is missing or
    the value is not a string. *)
Definition GetString (c : Context) (key : string) : string :=
  match Keys c !! key with
  | Some (AnyString s) => s
  | _ => ""
  end.

(** [ctx.Error(err)]: append to the error list. *)
Definition Error_ (c : Context) (err : error) : Context :=
  mkContext (Header c) (Keys c) (Errors c ++ [err])
            (aborted c) (written c) (responses c).

(** [ctx.Errors.Last()]. *)
Definition Last (c : Context) : option error := last (Errors c).

Definition Abort (c : Context) : Context :=
  mkContext (Header c) (Keys c) (Errors c) true (written c) (responses c).

Definition IsAborted (c : Context) : bool := aborted c.

Definition Written (c : Context) : bool := written c.

(** [ctx.AbortWithStatusJSON(code, obj)]: abort, then write the response. *)
Definition AbortWithStatusJSON (c : Context) (code : Z) (obj : JSONResponse) : Context :=
  let c := Abort c in
  mkContext (Header c) (Keys c) (Errors c) (aborted c) true
            (responses c ++ [(code, obj)]).

(** The value given to [panic]. *)
Inductive PanicValue : Type :=
| PanicString (s : string)
| PanicRuntimeError (text : string)
| PanicOther (v : any).

(** A handler: the context it leaves, and the panic that ended it if any. *)
Definition HandlerFunc : Type := Context -> Context * option PanicValue.

(** [ctx.Next()], where [rest] is the remainder of the chain: nothing runs
    once the request is aborted. *)
Definition Next (rest : HandlerFunc) (c : Context) : Context * option PanicValue :=
  if IsAborted c then (c, None) else rest c.

End Gin.

Import Gin.

(* ===================================================================== *)
(** ** extract_token.go: the strategies *)
(* ===================================================================== *)

Definition extractBearerToken (ctx : Context) : string * string :=
  let token := GetHeader ctx "Authorization" in
  if String.eqb token "" then ("", ErrMissingToken)
  else
    let '(isValid, token) := validateAndExtractBearerToken token in
    if negb isValid then ("", ErrInvalidToken)
    else (token, "").

(** Returns the token, the request-level failure message and the hard error. *)
Definition extractToken (ctx : Context) (authStrategy : string)
  : string * string * option error :=
  if String.eqb authStrategy "Bearer" then
    let '(token, errMsg) := extractBearerToken ctx in
    (token, errMsg, None)
  else
    ("", "", Some (Eris.Errorf ("unsupported auth strategy: " +:+ authStrategy))).

(* ===================================================================== *)
(** ** The middleware provider: authentication and authorization *)
(* ===================================================================== *)

(** The caller's check function, read as the spec's contract has it: from
    the request and the token to (found, attributes, error).  The provider
    refuses a nil function when the middleware is built, so a middleware
    always holds one. *)
Definition TokenCheckFunc : Type :=
  Context -> string -> bool * gmap string any * option error.

(** [for key, val := range data { ctx.Set(key, val) }]. *)
Definition setAll (data : gmap string any) (ctx : Context) : Context :=
  map_fold (fun key val c => Set_ c key val) ctx data.

Definition NewAuthMiddleware (authStrategy : string) (tokenCheckFunc : TokenCheckFunc)
                             (rest : HandlerFunc) : HandlerFunc :=
  fun ctx =>
    match extractToken ctx authStrategy with
    | (_, _, Some err) =>
        (Abort (Error_ ctx (Eris.Wrap err "error extracting token")), None)
    | (token, errMsg, None) =>
        if negb (String.eqb errMsg "") then
          (Abort (Error_ ctx (AppErr (Ungerr.UnauthorizedError errMsg))), None)
        else
          match tokenCheckFunc ctx token with
          | (_, _, Some err) => (Abort (Error_ ctx err), None)
          | (exists_, data, None) =>
              if negb exists_ then
                (Abort (Error_ ctx (AppErr (Ungerr.UnauthorizedError ErrUserNotFound))), None)
              else
                Next rest (setAll data ctx)
          end
    end.

(** [slices.Contains]. *)
Definition slicesContains (l : list string) (x : string) : bool :=
  existsb (String.eqb x) l.

Definition NewPermissionMiddleware (roleContextKey requiredPermission : string)
                                   (permissionMap : gmap string (list string))
                                   (rest : HandlerFunc) : HandlerFunc :=
  fun ctx =>
    let role := GetString ctx roleContextKey in
    if String.eqb role "" then
      (Abort (Error_ ctx (Eris.Errorf "role not found in context or invalid type")), None)
    else
      match permissionMap !! role with
      | None => (Abort (Error_ ctx (Eris.Errorf ("unknown role: " +:+ role))), None)
      | Some permissions =>
          if negb (slicesContains permissions requiredPermission) then
            (Abort (Error_ ctx (AppErr (Ungerr.ForbiddenError ErrNoPermission))), None)
          else
            Next rest ctx
      end.

(* ===================================================================== *)
(** ** error_middleware.go *)
(* ===================================================================== *)

Section ErrorMiddleware.

(** The two texts of module [ungerr] that the spec leaves open. *)
Variable maskedMessage : string.
Variable joinFieldErrors : list string -> string.

(** Both log, then return the masked error. *)
Definition logUnwrappedError (err : error) (ctx : Context) : AppError :=
  Ungerr.InternalServerError maskedMessage.

Definition logAndMaskError (err : error) : AppError :=
  Ungerr.InternalServerError maskedMessage.

Definition constructAppError (err : error) (ctx : Context) : AppError :=
  match Eris.Unwrap err with
  | None => logUnwrappedError err ctx
  | Some originalErr =>
      match originalErr with
      | Foreign (KValidationErrors fieldErrors) _ _ =>
          Ungerr.ValidationError joinFieldErrors fieldErrors
      | Foreign KSyntaxError _ _ =>
          Ungerr.BadRequestError "invalid json"
      | Foreign (KUnmarshalTypeError Field) _ _ =>
          Ungerr.BadRequestError ("invalid value for field " +:+ Field)
      | _ =>
          let errStr := Error originalErr in
          if match originalErr with Foreign KEOF _ _ => true | _ => false end
             || String.eqb errStr "EOF" then
            Ungerr.BadRequestError "missing request body"
          else if GoStrings.Contains errStr "connection reset by peer"
                  || GoStrings.Contains errStr "broken pipe" then
            Ungerr.BadRequestError "connection error"
          else
            logAndMaskError err
      end
  end.

(** The panic is logged by kind; the response is written only when nothing
    was written before. *)
Definition handlePanic (r : PanicValue) (ctx : Context) : Context :=
  if negb (Written ctx) then
    let appError := Ungerr.InternalServerError maskedMessage in
    AbortWithStatusJSON ctx (HttpStatus appError) (NewErrorResponse (AppErr appError))
  else ctx.

(** The deferred [recover] turns a panic of the rest of the chain into
    [handlePanic]; the statements after [ctx.Next()] run only when it
    returned normally. *)
Definition handle (rest : HandlerFunc) : HandlerFunc :=
  fun ctx =>
    match Next rest ctx with
    | (ctx, Some r) => (handlePanic r ctx, None)
    | (ctx, None) =>
        match Last ctx with
        | Some err =>
            match err with
            | AppErr appErr =>
                (AbortWithStatusJSON ctx (HttpStatus appErr) (NewErrorResponse (AppErr appErr)),
                 None)
            | _ =>
                let appError := constructAppError err ctx in
                (AbortWithStatusJSON ctx (HttpStatus appError) (NewErrorResponse (AppErr appError)),
                 None)
            end
        | None => (ctx, None)
        end
    end.

End ErrorMiddleware.


(* ===================================================================== *)
(** ** Requests and collaborators of the package's tests *)
(* ===================================================================== *)

(** The permission table of the tests. *)
Definition samplePermissions : gmap string (list string) :=
  {[ "admin" := ["read"; "write"; "delete"];
     "editor" := ["read"; "write"];
     "viewer" := ["read"] ]}.

(** One choice of the two texts left open. *)
Definition sampleMasked : string := "internal server error".
Definition sampleJoin : list string -> string := String.concat "; ".

(** A last handler that does nothing. *)
Definition lastHandler : HandlerFunc := fun ctx => (ctx, None).

(** A fresh request with one Authorization header. *)
Definition withHeader (value : string) : Context :=
  mkContext {[ "Authorization" := [value] ]} ∅ [] false false [].

Definition sampleAttributes : gmap string any :=
  {[ "user_id" := AnyString "123"; "role" := AnyString "admin" ]}.

(** The check function of the authentication test. *)
Definition sampleCheck : TokenCheckFunc := fun _ token =>
  if String.eqb token "valid_token" then (true, sampleAttributes, None)
  else (false, ∅, None).

(* ===================================================================== *)
(** ** The helpers of the handlers *)
(* ===================================================================== *)

(** The loop of [ctx.Set] over the attributes, taken in a given order: Go
    leaves the order of a [range] over a map open. *)
Definition setAllInOrder (entries : list (string * any)) (ctx : Context) : Context :=
  fold_left (fun c entry => Set_ c entry.1 entry.2) entries ctx.

(** [ctx.Get(key)]: the value and whether it exists, as an option. *)
Definition Get (c : Context) (key : string) : option any := Keys c !! key.

(** [ctx.JSON(code, obj)]: write the response; the request is not aborted. *)
Definition JSON (c : Context) (code : Z) (obj : JSONResponse) : Context :=
  mkContext (Header c) (Keys c) (Gin.Errors c) (aborted c) true
            (responses c ++ [(code, obj)]).

(** [fmt]'s verb [%v] on the values of [any]. *)
Definition fmtV (v : any) : string :=
  match v with
  | AnyNil => "<nil>"
  | AnyString s => s
  | AnyInt n => pretty n
  | AnyBool b => if b then "true" else "false"
  end.

(** The type assertion [val.(string)]. *)
Definition assertString (v : any) : option string :=
  match v with
  | AnyString s => Some s
  | _ => None
  end.

(** [ctx.Params.Get(name)]: the value of the first parameter of that name.
    The parameters of the route are given beside the context. *)
Fixpoint ParamsGet (ps : list (string * string)) (name : string) : option string :=
  match ps with
  | [] => None
  | (key, value) :: rest => if String.eqb key name then Some value else ParamsGet rest name
  end.

Section FromContext.

(** The type asked for: its zero value, its name as [%T] prints it and the
    type assertion to it. *)
Variable T : Type.
Variable zero : T.
Variable typeName : string.
Variable assertT : any -> option T.

Definition GetFromContext (ctx : Context) (key : string) : T * option error :=
  match Get ctx key with
  | None =>
      (zero, Some (Eris.Errorf ("value with key " +:+ key +:+ " not found in context")))
  | Some val =>
      match assertT val with
      | Some asserted => (asserted, None)
      | None =>
          (zero, Some (Eris.Errorf ("error asserting value " +:+ fmtV val
                                    +:+ " as type " +:+ typeName)))
      end
  end.

End FromContext.

Section Utils.

Variable T : Type.
Variable zero : T.

(** [ezutil.Parse[T]], which is not under src/: from the text to the value
    and the error. *)
Variable Parse : string -> T * option error.

Definition GetPathParam (params : list (string * string)) (key : string)
  : T * bool * option error :=
  match ParamsGet params key with
  | None => (zero, false, None)
  | Some paramValue =>
      match Parse paramValue with
      | (_, Some err) => (zero, false, Some err)
      | (parsedValue, None) => (parsedValue, true, None)
      end
  end.

Definition GetRequiredPathParam (params : list (string * string)) (key : string)
  : T * option error :=
  match ParamsGet params key with
  | None => (zero, Some (Eris.Errorf ("missing path param: " +:+ key)))
  | Some paramValue => Parse paramValue
  end.

Definition GetAndParseFromContext (ctx : Context) (key : string) : T * option error :=
  match GetFromContext string "" "string" assertString ctx key with
  | (_, Some err) => (zero, Some err)
  | (asserted, None) => Parse asserted
  end.

(** [ctx.ShouldBindWith(&zero, bindType)]: the value as the binding left it
    and the error of the binding. *)
Variable ShouldBindWith : Context -> T * option error.

Definition BindRequest (ctx : Context) (bindTypeName : string) : T * option error :=
  match ShouldBindWith ctx with
  | (bound, Some err) =>
      (bound, Some (Eris.Wrap err ("failed to bind request with type " +:+ bindTypeName)))
  | (bound, None) => (bound, None)
  end.

End Utils.

(** What a handler given to [WrapHandler] does: it returns its four results
    or panics, and leaves a context. *)
Inductive HandlerResult : Type :=
| Returned (statusCode : Z) (message : string) (response : any) (err : option error)
| Panicked (r : PanicValue).

Definition WrapHandler (handler : Context -> Context * HandlerResult) : HandlerFunc :=
  fun ctx =>
    match handler ctx with
    | (ctx, Panicked r) => (ctx, Some r)
    | (ctx, Returned statusCode message response (Some err)) => (Error_ ctx err, None)
    | (ctx, Returned statusCode message response None) =>
        (JSON ctx statusCode (WithData (NewResponse message) response), None)
    end.

(** Splits a table of implications and settles every line of it: a line on
    another kind of error is vacuous, the others compute. *)
Ltac by_category :=
  repeat match goal with
    | |- _ /\ _ => split
    | |- _ -> _ => intro
    | |- forall _, _ => intro
    | H : _ \/ _ |- _ => destruct H
    | H : _ /\ _ |- _ => destruct H
    | H : GoStrings.Contains _ _ = _ |- _ => rewrite H; clear H
    end;
  try discriminate; try contradiction;
  rewrite ?orb_true_r; simpl; try congruence.

(* ===================================================================== *)
(** ** Facts about the library functions *)
(* ===================================================================== *)

(** [subtle.ConstantTimeCompare] decides equality of byte strings. *)
Module SubtleFacts.
Import Subtle.

Lemma isByte_log2 a : isByte a <-> 0 <= a /\ Z.log2 a < 8.
Proof.
  unfold isByte. split.
  - intros [H0 H1]. split; [exact H0|].
    destruct (Z.eq_dec a 0) as [->|Hne]; [reflexivity|].
    apply Z.log2_lt_pow2; lia.
  - intros [H0 H1]. split; [exact H0|].
    destruct (Z.eq_dec a 0) as [->|Hne]; [lia|].
    change 256 with (2 ^ 8). apply Z.log2_lt_pow2; lia.
Qed.

Lemma isByte_lor a b : isByte a -> isByte b -> isByte (Z.lor a b).
Proof.
  rewrite !isByte_log2. intros [Ha La] [Hb Lb]. split.
  - apply Z.lor_nonneg. split; assumption.
  - rewrite Z.log2_lor by assumption. lia.
Qed.

Lemma isByte_lxor a b : isByte a -> isByte b -> isByte (Z.lxor a b).
Proof.
  rewrite !isByte_log2. intros [Ha La] [Hb Lb]. split.
  - apply Z.lxor_nonneg. tauto.
  - pose proof (Z.log2_lxor a b Ha Hb). lia.
Qed.

Lemma isByte_byte c : isByte (byte c).
Proof.
  unfold isByte, byte. pose proof (N_ascii_bounded c). lia.
Qed.

Lemma byte_inj c d : byte c = byte d -> c = d.
Proof.
  unfold byte. intros H. apply N2Z.inj in H.
  rewrite <- (ascii_N_embedding c), <- (ascii_N_embedding d). now rewrite H.
Qed.

Lemma bytes_inj s t : bytes s = bytes t -> s = t.
Proof.
  unfold bytes. revert t. induction s as [|c s IH]; intros [|d t]; simpl; try discriminate.
  - reflexivity.
  - intros H. injection H as Hc Hr. apply byte_inj in Hc. rewrite Hc, (IH t Hr). reflexivity.
Qed.

Lemma bytes_length s : List.length (bytes s) = String.length s.
Proof. unfold bytes. induction s; simpl; congruence. Qed.

Lemma Forall_isByte_bytes s : Forall isByte (bytes s).
Proof.
  unfold bytes. induction s; simpl; constructor; auto using isByte_byte.
Qed.

(** The byte comparison answers 1 on equal bytes and 0 otherwise. *)
Lemma ConstantTimeByteEq_zero v : isByte v ->
  ConstantTimeByteEq v 0 = if Z.eqb v 0 then 1 else 0.
Proof.
  intros Hv. unfold ConstantTimeByteEq. rewrite Z.lxor_0_r.
  rewrite Z.shiftr_div_pow2 by lia.
  destruct (Z.eqb_spec v 0) as [->|Hne].
  - reflexivity.
  - unfold isByte in Hv. rewrite Z.mod_small by lia.
    apply Z.div_small. lia.
Qed.

Lemma accumulate_spec x : forall y v,
  List.length x = List.length y -> Forall isByte x -> Forall isByte y -> isByte v ->
  isByte (accumulate v x y) /\ (accumulate v x y = 0 <-> v = 0 /\ x = y).
Proof.
  induction x as [|a x IH]; intros [|b y] v Hlen Hx Hy Hv; simpl in *; try discriminate.
  - split; [assumption|]. tauto.
  - inversion Hx as [|? ? Ha Hx']; subst. inversion Hy as [|? ? Hb Hy']; subst.
    injection Hlen as Hlen.
    destruct (IH y (Z.lor v (Z.lxor a b)) Hlen Hx' Hy') as [Hr Hz].
    { apply isByte_lor; [assumption|]. apply isByte_lxor; assumption. }
    split; [assumption|].
    rewrite Hz, Z.lor_eq_0_iff, Z.lxor_eq_0_iff.
    split.
    + intros [[-> ->] ->]. auto.
    + intros [-> Heq]. injection Heq as -> ->. auto.
Qed.

Lemma ConstantTimeCompare_bytes s t :
  ConstantTimeCompare (bytes s) (bytes t) = if String.eqb s t then 1 else 0.
Proof.
  unfold ConstantTimeCompare.
  destruct (Nat.eqb_spec (List.length (bytes s)) (List.length (bytes t))) as [Hlen|Hlen]; simpl.
  - destruct (accumulate_spec (bytes s) (bytes t) 0 Hlen
                (Forall_isByte_bytes s) (Forall_isByte_bytes t)) as [Hr Hz].
    { unfold isByte. lia. }
    rewrite ConstantTimeByteEq_zero by assumption.
    destruct (String.eqb_spec s t) as [->|Hne].
    + assert (accumulate 0 (bytes t) (bytes t) = 0) as -> by (apply Hz; auto).
      reflexivity.
    + destruct (Z.eqb_spec (accumulate 0 (bytes s) (bytes t)) 0) as [He|He]; [|reflexivity].
      apply Hz in He. destruct He as [_ He]. apply bytes_inj in He. contradiction.
  - destruct (String.eqb_spec s t) as [->|Hne]; [contradiction|reflexivity].
Qed.
End SubtleFacts.

(** [strings.Split] on one separator byte, and [strings.ToLower]. *)
Module GoStringsFacts.
Import GoStrings.

Lemma Split_nonempty s sep : Split s sep <> [].
Proof.
  destruct s as [|c r]; simpl; [discriminate|].
  destruct (Ascii.eqb c sep); [discriminate|].
  destruct (Split r sep); discriminate.
Qed.

Lemma Split_length s sep : List.length (Split s sep) = S (Count s sep).
Proof.
  induction s as [|c r IH]; simpl; [reflexivity|].
  destruct (Ascii.eqb c sep); simpl; [congruence|].
  destruct (Split r sep) as [|p ps] eqn:E; simpl in *; [discriminate|assumption].
Qed.

Lemma Split_no_sep s sep : Count s sep = 0%nat -> Split s sep = [s].
Proof.
  induction s as [|c r IH]; simpl; [reflexivity|].
  destruct (Ascii.eqb c sep); [discriminate|].
  intros H. rewrite (IH H). reflexivity.
Qed.

Lemma Split_app_sep a b sep :
  Count a sep = 0%nat -> Split (a +:+ String sep b) sep = a :: Split b sep.
Proof.
  induction a as [|c r IH]; simpl.
  - intros _. rewrite Ascii.eqb_refl. reflexivity.
  - destruct (Ascii.eqb c sep); [discriminate|].
    intros H. rewrite (IH H). reflexivity.
Qed.

Lemma lowerByte_space c : Ascii.eqb (lowerByte c) " " = Ascii.eqb c " ".
Proof.
  destruct c as [[] [] [] [] [] [] [] []]; reflexivity.
Qed.

Lemma Count_ToLower_space s : Count (ToLower s) " " = Count s " ".
Proof.
  induction s as [|c r IH]; simpl; [reflexivity|].
  rewrite lowerByte_space, IH. reflexivity.
Qed.

Lemma bearer_has_no_space scheme : ToLower scheme = "bearer" -> Count scheme " " = 0%nat.
Proof.
  intros H. rewrite <- Count_ToLower_space, H. reflexivity.
Qed.

Lemma append_sep_nonempty a c b : String.eqb (a +:+ String c b) "" = false.
Proof. destruct a; reflexivity. Qed.
End GoStringsFacts.

Import GoStringsFacts SubtleFacts.

(* ===================================================================== *)
(** ** Token extraction *)
(* ===================================================================== *)

Example validate_plain : validateAndExtractBearerToken "Bearer abc123" = (true, "abc123").
Proof. reflexivity. Qed.
Example validate_empty_credential : validateAndExtractBearerToken "Bearer " = (true, "").
Proof. reflexivity. Qed.
Example validate_bare_scheme : validateAndExtractBearerToken "Bearer" = (false, "").
Proof. reflexivity. Qed.
Example validate_two_spaces : validateAndExtractBearerToken "Bearer  token" = (false, "").
Proof. reflexivity. Qed.
Example validate_basic : validateAndExtractBearerToken "Basic token123" = (false, "").
Proof. reflexivity. Qed.
Example validate_mixed_case : validateAndExtractBearerToken "bEaReR x.y" = (true, "x.y").
Proof. reflexivity. Qed.

(** The header check, with the constant-time comparison read as equality. *)
Lemma validate_spec bearerToken :
  validateAndExtractBearerToken bearerToken =
    match GoStrings.Split bearerToken " " with
    | [scheme; credential] =>
        if String.eqb (GoStrings.ToLower scheme) "bearer" then (true, credential) else (false, "")
    | _ => (false, "")
    end.
Proof.
  unfold validateAndExtractBearerToken.
  destruct (GoStrings.Split bearerToken " ") as [|a [|b [|c l]]]; simpl; try reflexivity.
  rewrite ConstantTimeCompare_bytes.
  destruct (String.eqb (GoStrings.ToLower a) "bearer"); reflexivity.
Qed.

(** C5. A header made of a scheme that is "bearer" up to case, one space and
    a credential without a space passes Bearer extraction, which returns the
    credential as it stands, the empty credential of "Bearer " included. *)
Theorem bearer_wellformed_yields_credential (ctx : Context) (scheme credential : string) :
  GoStrings.ToLower scheme = "bearer" ->
  GoStrings.Count credential " " = 0%nat ->
  GetHeader ctx "Authorization" = scheme +:+ " " +:+ credential ->
  validateAndExtractBearerToken (scheme +:+ " " +:+ credential) = (true, credential)
  /\ extractBearerToken ctx = (credential, "")
  /\ extractToken ctx "Bearer" = (credential, "", None).
Proof.
  intros Hs Hc Hh.
  assert (Hv : validateAndExtractBearerToken (scheme +:+ " " +:+ credential) = (true, credential)).
  { rewrite validate_spec.
    change (scheme +:+ " " +:+ credential) with (scheme +:+ String " " credential).
    rewrite Split_app_sep by (apply bearer_has_no_space; exact Hs).
    rewrite Split_no_sep by exact Hc. rewrite Hs. reflexivity. }
  assert (He : extractBearerToken ctx = (credential, "")).
  { unfold extractBearerToken. rewrite Hh.
    change (scheme +:+ " " +:+ credential) with (scheme +:+ String " " credential) in *.
    rewrite append_sep_nonempty, Hv. reflexivity. }
  split; [exact Hv|]. split; [exact He|].
  unfold extractToken. simpl. rewrite He. reflexivity.
Qed.

(** The header "Bearer " of the tests: valid, with the empty token. *)
Lemma bearer_wellformed_yields_credential_witness :
  GoStrings.ToLower "Bearer" = "bearer"
  /\ validateAndExtractBearerToken "Bearer " = (true, "")
  /\ extractBearerToken (withHeader "Bearer ") = ("", "")
  /\ extractToken (withHeader "Bearer ") "Bearer" = ("", "", None).
Proof.
  split; [reflexivity|].
  apply (bearer_wellformed_yields_credential (withHeader "Bearer ") "Bearer" "");
    reflexivity.
Defined.



(* ===================================================================== *)
(** ** Authentication *)
(* ===================================================================== *)

(** The loop over the attributes is a left-biased union with the store. *)
Lemma setAll_spec (data : gmap string any) (ctx : Context) :
  setAll data ctx =
    mkContext (Header ctx) (data ∪ Keys ctx) (Gin.Errors ctx)
              (aborted ctx) (written ctx) (responses ctx).
Proof.
  unfold setAll.
  apply (map_fold_weak_ind
           (fun r (m : gmap string any) =>
              r = mkContext (Header ctx) (m ∪ Keys ctx) (Gin.Errors ctx)
                            (aborted ctx) (written ctx) (responses ctx))).
  - rewrite (left_id_L ∅ (∪)). destruct ctx; reflexivity.
  - intros key val m r _ ->. unfold Set_; simpl.
    rewrite insert_union_l. reflexivity.
Qed.

Lemma setAll_lookup_new (data : gmap string any) (ctx : Context) (key : string) (val : any) :
  data !! key = Some val -> Keys (setAll data ctx) !! key = Some val.
Proof.
  intros H. rewrite setAll_spec; simpl. apply lookup_union_Some_l. exact H.
Qed.

Lemma setAll_lookup_old (data : gmap string any) (ctx : Context) (key : string) :
  data !! key = None -> Keys (setAll data ctx) !! key = Keys ctx !! key.
Proof.
  intros H. rewrite setAll_spec; simpl. apply lookup_union_r. exact H.
Qed.

(** C9. With a usable token and a check function answering (true,
    attributes, nil), the authentication middleware hands the rest of the
    chain a context whose store holds every entry of the attributes, an
    attribute winning over an older entry of the same key and the other
    entries kept; it records no error and does not abort, so the rest of the
    chain runs. *)
Theorem auth_success_merges_attributes
    (authStrategy : string) (tokenCheckFunc : TokenCheckFunc) (rest : HandlerFunc)
    (ctx : Context) (token : string) (data : gmap string any) :
  extractToken ctx authStrategy = (token, "", None) ->
  tokenCheckFunc ctx token = (true, data, None) ->
  exists ctx' : Context,
    NewAuthMiddleware authStrategy tokenCheckFunc rest ctx = Next rest ctx'
    /\ (forall key val, data !! key = Some val -> Keys ctx' !! key = Some val)
    /\ (forall key, data !! key = None -> Keys ctx' !! key = Keys ctx !! key)
    /\ IsAborted ctx' = IsAborted ctx
    /\ Gin.Errors ctx' = Gin.Errors ctx
    /\ responses ctx' = responses ctx
    /\ (IsAborted ctx = false ->
        NewAuthMiddleware authStrategy tokenCheckFunc rest ctx = rest ctx').
Proof.
  intros Hx Hc. exists (setAll data ctx).
  assert (Hrun : NewAuthMiddleware authStrategy tokenCheckFunc rest ctx
                 = Next rest (setAll data ctx)).
  { unfold NewAuthMiddleware. rewrite Hx. simpl. rewrite Hc. reflexivity. }
  split; [exact Hrun|].
  split; [intros key val; apply setAll_lookup_new|].
  split; [intros key; apply setAll_lookup_old|].
  rewrite Hrun, setAll_spec. unfold Next, IsAborted; simpl.
  split; [reflexivity|]. split; [reflexivity|]. split; [reflexivity|].
  intros ->. reflexivity.
Qed.

(** The scenario of the spec, on a store that already holds a role: the
    chain goes on with user_id = "123" and role = "admin". *)
Lemma auth_success_merges_attributes_witness :
  exists ctx' : Context,
    NewAuthMiddleware "Bearer" sampleCheck lastHandler
      (Set_ (withHeader "Bearer valid_token") "role" (AnyString "guest")) = (ctx', None)
    /\ Keys ctx' !! "user_id" = Some (AnyString "123")
    /\ Keys ctx' !! "role" = Some (AnyString "admin")
    /\ IsAborted ctx' = false.
Proof.
  destruct (auth_success_merges_attributes "Bearer" sampleCheck lastHandler
              (Set_ (withHeader "Bearer valid_token") "role" (AnyString "guest"))
              "valid_token" sampleAttributes eq_refl eq_refl)
    as (ctx' & _ & Hnew & _ & Hab & _ & _ & Hrun).
  exists ctx'.
  split; [exact (Hrun eq_refl)|].
  split; [apply Hnew; reflexivity|].
  split; [apply Hnew; reflexivity|].
  rewrite Hab. reflexivity.
Defined.

(** C10. When extraction fails hard, reports a missing or invalid token, or
    the check function returns an error or found = false, the middleware
    only records one error and aborts: the rest of the chain does not run
    and the attribute store is the one it received. *)
Theorem auth_failure_leaves_store
    (authStrategy : string) (tokenCheckFunc : TokenCheckFunc) (rest : HandlerFunc)
    (ctx : Context) (token errMsg : string) (hard : option error)
    (found : bool) (data : gmap string any) (err : option error) :
  extractToken ctx authStrategy = (token, errMsg, hard) ->
  tokenCheckFunc ctx token = (found, data, err) ->
  hard <> None \/ errMsg <> "" \/ err <> None \/ found = false ->
  exists e : error,
    NewAuthMiddleware authStrategy tokenCheckFunc rest ctx = (Abort (Error_ ctx e), None)
    /\ IsAborted (NewAuthMiddleware authStrategy tokenCheckFunc rest ctx).1 = true
    /\ Keys (NewAuthMiddleware authStrategy tokenCheckFunc rest ctx).1 = Keys ctx.
Proof.
  intros Hx Hc Hfail.
  unfold NewAuthMiddleware. rewrite Hx.
  destruct hard as [e|].
  { eexists. repeat split. }
  destruct (String.eqb_spec errMsg "") as [->|Hm]; simpl.
  2:{ eexists. repeat split. }
  rewrite Hc. destruct err as [e|].
  { eexists. repeat split. }
  destruct found; simpl.
  2:{ eexists. repeat split. }
  destruct Hfail as [H|[H|[H|H]]]; congruence.
Qed.

(** A token the check function does not know, with attributes returned all
    the same: nothing reaches the store. *)
Lemma auth_failure_leaves_store_witness :
  exists e : error,
    NewAuthMiddleware "Bearer" (fun _ _ => (false, sampleAttributes, None)) lastHandler
      (withHeader "Bearer invalid_token")
      = (Abort (Error_ (withHeader "Bearer invalid_token") e), None)
    /\ IsAborted (NewAuthMiddleware "Bearer" (fun _ _ => (false, sampleAttributes, None)) lastHandler
                    (withHeader "Bearer invalid_token")).1 = true
    /\ Keys (NewAuthMiddleware "Bearer" (fun _ _ => (false, sampleAttributes, None)) lastHandler
               (withHeader "Bearer invalid_token")).1 = ∅.
Proof.
  apply (auth_failure_leaves_store "Bearer" (fun _ _ => (false, sampleAttributes, None)) lastHandler
           (withHeader "Bearer invalid_token") "invalid_token" "" None
           false sampleAttributes None eq_refl eq_refl).
  right. right. right. reflexivity.
Defined.

Lemma GetHeader_absent (ctx : Context) (key : string) :
  Header ctx !! key = None -> GetHeader ctx key = "".
Proof. unfold GetHeader. intros ->. reflexivity. Qed.

Lemma Last_Abort_Error (c : Context) (e : error) : Last (Abort (Error_ c e)) = Some e.
Proof. unfold Last, Abort, Error_; simpl. apply last_snoc. Qed.

(* ===================================================================== *)
(** ** The error middleware *)
(* ===================================================================== *)

Section Classifier.

Variable maskedMessage : string.
Variable joinFieldErrors : list string -> string.

(** The middleware around a chain that returned normally and left a typed
    application error last. *)
Lemma handle_typed (rest : HandlerFunc) (ctx ctx' : Context) (a : AppError) :
  Next rest ctx = (ctx', None) ->
  Last ctx' = Some (AppErr a) ->
  handle maskedMessage joinFieldErrors rest ctx =
    (AbortWithStatusJSON ctx' (HttpStatus a) (NewErrorResponse (AppErr a)), None).
Proof.
  intros Hn Hl. unfold handle. rewrite Hn, Hl. reflexivity.
Qed.

(** The same with any other error last: the classifier decides. *)
Lemma handle_untyped (rest : HandlerFunc) (ctx ctx' : Context) (err : error) :
  Next rest ctx = (ctx', None) ->
  Last ctx' = Some err ->
  (forall a, err <> AppErr a) ->
  handle maskedMessage joinFieldErrors rest ctx =
    (AbortWithStatusJSON ctx'
       (HttpStatus (constructAppError maskedMessage joinFieldErrors err ctx'))
       (NewErrorResponse (AppErr (constructAppError maskedMessage joinFieldErrors err ctx'))),
     None).
Proof.
  intros Hn Hl Hu. unfold handle. rewrite Hn, Hl.
  destruct err as [a| | |]; [destruct (Hu a); reflexivity| | |]; reflexivity.
Qed.

(** The classifier on an error that unwraps, by the kind and the text of
    the underlying error. *)
Lemma constructAppError_unwrapped (err : error) (ctx : Context) (u : error) :
  Eris.Unwrap err = Some u ->
  constructAppError maskedMessage joinFieldErrors err ctx =
    match errKindOf u with
    | KValidationErrors fieldErrors => Ungerr.ValidationError joinFieldErrors fieldErrors
    | KSyntaxError => Ungerr.BadRequestError "invalid json"
    | KUnmarshalTypeError Field =>
        Ungerr.BadRequestError ("invalid value for field " +:+ Field)
    | KEOF => Ungerr.BadRequestError "missing request body"
    | KOther =>
        if String.eqb (Error u) "EOF" then Ungerr.BadRequestError "missing request body"
        else if GoStrings.Contains (Error u) "connection reset by peer"
                || GoStrings.Contains (Error u) "broken pipe"
             then Ungerr.BadRequestError "connection error"
             else Ungerr.InternalServerError maskedMessage
    end.
Proof.
  intros Hw. unfold constructAppError. rewrite Hw.
  destruct u as [b|msg ext|msg inner|kind text unwrap]; try reflexivity.
  destruct kind; reflexivity.
Qed.

(** The classifier on an error with nothing to unwrap. *)
Lemma constructAppError_not_wrapped (err : error) (ctx : Context) :
  Eris.Unwrap err = None ->
  constructAppError maskedMessage joinFieldErrors err ctx
    = Ungerr.InternalServerError maskedMessage.
Proof.
  intros Hw. unfold constructAppError. rewrite Hw. reflexivity.
Qed.

(** C1. When the last error of the list is not a typed application error and
    unwraps to an underlying error, the classifier answers by the category
    of the underlying error, in the order of the type switch: a collection of
    validation failures gives 422 with the joined field messages; a JSON
    syntax error 400 "invalid json"; a JSON type mismatch 400 "invalid value
    for field <field>"; the end-of-stream value, or an error of text "EOF",
    400 "missing request body"; a text with "connection reset by peer" or
    "broken pipe" 400 "connection error"; anything else the masked error of
    status 500, whose message is the library's fixed text and is not built
    from the underlying error.  The middleware writes that answer when the
    rest of the chain returned normally. *)
Theorem classifier_maps_by_category (ctx' : Context) (err u : error) :
  Last ctx' = Some err ->
  (forall a, err <> AppErr a) ->
  Eris.Unwrap err = Some u ->
  let a := constructAppError maskedMessage joinFieldErrors err ctx' in
  (forall rest ctx, Next rest ctx = (ctx', None) ->
     handle maskedMessage joinFieldErrors rest ctx =
       (AbortWithStatusJSON ctx' (HttpStatus a) (NewErrorResponse (AppErr a)), None))
  /\ (forall fieldErrors, errKindOf u = KValidationErrors fieldErrors ->
      HttpStatus a = 422 /\ ErrorText a = joinFieldErrors fieldErrors
      /\ Details a = fieldErrors)
  /\ (errKindOf u = KSyntaxError ->
      HttpStatus a = 400 /\ ErrorText a = "invalid json")
  /\ (forall Field, errKindOf u = KUnmarshalTypeError Field ->
      HttpStatus a = 400 /\ ErrorText a = "invalid value for field " +:+ Field)
  /\ (errKindOf u = KEOF \/ errKindOf u = KOther /\ Error u = "EOF" ->
      HttpStatus a = 400 /\ ErrorText a = "missing request body")
  /\ (errKindOf u = KOther -> Error u <> "EOF" ->
      GoStrings.Contains (Error u) "connection reset by peer" = true
      \/ GoStrings.Contains (Error u) "broken pipe" = true ->
      HttpStatus a = 400 /\ ErrorText a = "connection error")
  /\ (errKindOf u = KOther -> Error u <> "EOF" ->
      GoStrings.Contains (Error u) "connection reset by peer" = false ->
      GoStrings.Contains (Error u) "broken pipe" = false ->
      a = Ungerr.InternalServerError maskedMessage
      /\ HttpStatus a = 500 /\ ErrorText a = maskedMessage).
Proof.
  intros Hl Hu Hw a.
  split; [intros rest ctx Hn; apply handle_untyped; assumption|].
  subst a. rewrite (constructAppError_unwrapped err ctx' u Hw).
  destruct (errKindOf u) as [fs| |f| |] eqn:Hk.
  5: destruct (String.eqb_spec (Error u) "EOF") as [He|He].
  all: by_category.
Qed.

(** C2. When the rest of the chain returned normally and the last error of
    the list is a typed application error, the middleware writes one
    response with that error's status and, as message, that error's text,
    both as they are, and aborts. *)
Theorem typed_error_passes_through
    (rest : HandlerFunc) (ctx ctx' : Context) (earlier : list error) (a : AppError) :
  Next rest ctx = (ctx', None) ->
  Gin.Errors ctx' = earlier ++ [AppErr a] ->
  handle maskedMessage joinFieldErrors rest ctx =
    (AbortWithStatusJSON ctx' (HttpStatus a) (NewErrorResponse (AppErr a)), None)
  /\ responses (handle maskedMessage joinFieldErrors rest ctx).1 =
       responses ctx' ++
       [(HttpStatus a,
         mkJSONResponse (ErrorText a) AnyNil (Some (AppErr a)) zeroPagination)]
  /\ IsAborted (handle maskedMessage joinFieldErrors rest ctx).1 = true.
Proof.
  intros Hn He.
  assert (Hl : Last ctx' = Some (AppErr a)).
  { unfold Last. rewrite He. apply last_snoc. }
  rewrite (handle_typed rest ctx ctx' a Hn Hl).
  split; [reflexivity|]. split; reflexivity.
Qed.

(** C4. When the rest of the chain panics, the middleware recovers the
    panic.  If nothing was written, it writes exactly one response, the
    masked error with status 500; if something was written, it leaves the
    context, and so the response, as it found it.  Either way it adds at
    most one response. *)
Theorem recovery_guard_writes_at_most_once
    (rest : HandlerFunc) (ctx ctx' : Context) (r : PanicValue) :
  Next rest ctx = (ctx', Some r) ->
  (handle maskedMessage joinFieldErrors rest ctx).2 = None
  /\ (Written ctx' = false ->
      responses (handle maskedMessage joinFieldErrors rest ctx).1 =
        responses ctx' ++
        [(500, NewErrorResponse (AppErr (Ungerr.InternalServerError maskedMessage)))]
      /\ Written (handle maskedMessage joinFieldErrors rest ctx).1 = true
      /\ IsAborted (handle maskedMessage joinFieldErrors rest ctx).1 = true)
  /\ (Written ctx' = true -> (handle maskedMessage joinFieldErrors rest ctx).1 = ctx')
  /\ (List.length (responses (handle maskedMessage joinFieldErrors rest ctx).1)
      <= S (List.length (responses ctx')))%nat.
Proof.
  intros Hn. unfold handle. rewrite Hn.
  unfold handlePanic. simpl.
  destruct (Written ctx') eqn:Hw; simpl.
  - split; [reflexivity|]. split; [discriminate|]. split; [reflexivity|]. lia.
  - split; [reflexivity|]. split; [intros _; repeat split|].
    split; [discriminate|]. rewrite length_app; simpl. lia.
Qed.

(** The middleware around a handler that aborted with an error that no
    diagnostic wrapper holds. *)
Lemma handle_after_abort_unwrapped (h : HandlerFunc) (ctx c : Context) (e : error) :
  IsAborted ctx = false ->
  h ctx = (Abort (Error_ c e), None) ->
  (forall a, e <> AppErr a) ->
  Eris.Unwrap e = None ->
  handle maskedMessage joinFieldErrors h ctx =
    (AbortWithStatusJSON (Abort (Error_ c e)) 500
       (NewErrorResponse (AppErr (Ungerr.InternalServerError maskedMessage))), None).
Proof.
  intros Hna Hh Hu Hw.
  rewrite (handle_untyped h ctx (Abort (Error_ c e)) e).
  - rewrite (constructAppError_not_wrapped e _ Hw). reflexivity.
  - unfold Next. rewrite Hna. exact Hh.
  - apply Last_Abort_Error.
  - exact Hu.
Qed.

(** The middleware around a handler that aborted with a typed error. *)
Lemma handle_after_abort_typed (h : HandlerFunc) (ctx c : Context) (a : AppError) :
  IsAborted ctx = false ->
  h ctx = (Abort (Error_ c (AppErr a)), None) ->
  handle maskedMessage joinFieldErrors h ctx =
    (AbortWithStatusJSON (Abort (Error_ c (AppErr a))) (HttpStatus a)
                         (NewErrorResponse (AppErr a)), None).
Proof.
  intros Hna Hh. apply handle_typed.
  - unfold Next. rewrite Hna. exact Hh.
  - apply Last_Abort_Error.
Qed.

(** C7. Without an Authorization header, or with an empty one, Bearer
    extraction reports the missing token, not the invalid one; the
    authentication middleware aborts with the unauthorized error of status
    401 and message "missing token", and the error middleware around it
    writes that status and that message. *)
Theorem missing_header_is_missing_token
    (tokenCheckFunc : TokenCheckFunc) (rest : HandlerFunc) (ctx : Context) :
  Header ctx !! "Authorization" = None \/ GetHeader ctx "Authorization" = "" ->
  extractBearerToken ctx = ("", ErrMissingToken)
  /\ (extractBearerToken ctx).2 <> ErrInvalidToken
  /\ ErrMissingToken = "missing token"
  /\ NewAuthMiddleware "Bearer" tokenCheckFunc rest ctx =
       (Abort (Error_ ctx (AppErr (mkAppError 401 "missing token" []))), None)
  /\ (IsAborted ctx = false ->
      handle maskedMessage joinFieldErrors (NewAuthMiddleware "Bearer" tokenCheckFunc rest) ctx =
        (AbortWithStatusJSON
           (Abort (Error_ ctx (AppErr (mkAppError 401 "missing token" []))))
           401
           (mkJSONResponse "missing token" AnyNil
              (Some (AppErr (mkAppError 401 "missing token" []))) zeroPagination),
         None)).
Proof.
  intros Habsent.
  assert (Hh : GetHeader ctx "Authorization" = "").
  { destruct Habsent as [H|H]; [apply GetHeader_absent|]; exact H. }
  assert (He : extractBearerToken ctx = ("", ErrMissingToken)).
  { unfold extractBearerToken. rewrite Hh. reflexivity. }
  assert (Hm : NewAuthMiddleware "Bearer" tokenCheckFunc rest ctx =
       (Abort (Error_ ctx (AppErr (mkAppError 401 "missing token" []))), None)).
  { unfold NewAuthMiddleware, extractToken. simpl. rewrite He. reflexivity. }
  split; [exact He|]. split; [rewrite He; discriminate|].
  split; [reflexivity|]. split; [exact Hm|].
  intros Hna. apply (handle_after_abort_typed _ ctx ctx _ Hna Hm).
Qed.

(** C3, as the code has it. When the role is missing from the store, is not
    a string, or is a string the permission table does not know, the
    authorizer records an eris error that is not a typed application error
    and holds nothing to unwrap, and aborts; the error middleware around it
    answers with the masked error of status 500, the same response in the
    three cases. *)
Theorem permission_without_known_role_is_internal_fault
    (roleContextKey requiredPermission : string)
    (permissionMap : gmap string (list string)) (rest : HandlerFunc) (ctx : Context) :
  Keys ctx !! roleContextKey = None
  \/ (exists v, Keys ctx !! roleContextKey = Some v /\ forall s, v <> AnyString s)
  \/ (exists s, Keys ctx !! roleContextKey = Some (AnyString s) /\ permissionMap !! s = None) ->
  exists e : error,
    NewPermissionMiddleware roleContextKey requiredPermission permissionMap rest ctx
      = (Abort (Error_ ctx e), None)
    /\ (forall a, e <> AppErr a)
    /\ Eris.Unwrap e = None
    /\ (IsAborted ctx = false ->
        handle maskedMessage joinFieldErrors
          (NewPermissionMiddleware roleContextKey requiredPermission permissionMap rest) ctx
          = (AbortWithStatusJSON (Abort (Error_ ctx e)) 500
               (NewErrorResponse (AppErr (Ungerr.InternalServerError maskedMessage))),
             None)).
Proof.
  intros Hrole.
  assert (Hcases : GetString ctx roleContextKey = ""
                   \/ permissionMap !! GetString ctx roleContextKey = None).
  { unfold GetString.
    destruct Hrole as [-> | [(v & -> & Hv) | (s & -> & Hs)]]; auto.
    destruct v; auto. destruct (Hv s); reflexivity. }
  assert (Hrun : exists msg,
    NewPermissionMiddleware roleContextKey requiredPermission permissionMap rest ctx
      = (Abort (Error_ ctx (ErisRoot msg None)), None)).
  { unfold NewPermissionMiddleware.
    destruct (String.eqb (GetString ctx roleContextKey) "") eqn:Hempty.
    - eexists; reflexivity.
    - destruct Hcases as [H|H].
      + rewrite H in Hempty. discriminate.
      + rewrite H. eexists; reflexivity. }
  destruct Hrun as [msg Hrun]. exists (ErisRoot msg None).
  split; [exact Hrun|]. split; [discriminate|]. split; [reflexivity|].
  intros Hna.
  apply handle_after_abort_unwrapped; [exact Hna|exact Hrun|discriminate|reflexivity].
Qed.

(** The text of the hard error of an unknown strategy, against the texts
    the classifier looks for. *)
Lemma unsupported_text_not_EOF (s : string) :
  String.eqb ("unsupported auth strategy: " +:+ s) "EOF" = false.
Proof. reflexivity. Qed.

Lemma unsupported_text_Contains_reset (s : string) :
  GoStrings.Contains ("unsupported auth strategy: " +:+ s) "connection reset by peer"
  = GoStrings.Contains s "connection reset by peer".
Proof. reflexivity. Qed.

Lemma unsupported_text_Contains_pipe (s : string) :
  GoStrings.Contains ("unsupported auth strategy: " +:+ s) "broken pipe"
  = GoStrings.Contains s "broken pipe".
Proof. reflexivity. Qed.

(** C8, as the code has it. For every strategy other than "Bearer",
    extraction returns a hard error and neither request-level failure, and
    the authentication middleware wraps it, records it and aborts, with no
    unauthorized error.  The error middleware around it never answers 401:
    it answers the masked error of status 500 when the strategy name contains
    neither "connection reset by peer" nor "broken pipe", and 400
    "connection error" when it contains one of them. *)
Theorem unsupported_strategy_is_internal_fault
    (authStrategy : string) (tokenCheckFunc : TokenCheckFunc) (rest : HandlerFunc)
    (ctx : Context) :
  authStrategy <> "Bearer" ->
  let hard := ErisRoot ("unsupported auth strategy: " +:+ authStrategy) None in
  let pushed := ErisWrap "error extracting token" hard in
  extractToken ctx authStrategy = ("", "", Some hard)
  /\ NewAuthMiddleware authStrategy tokenCheckFunc rest ctx
       = (Abort (Error_ ctx pushed), None)
  /\ (forall a, pushed <> AppErr a)
  /\ (IsAborted ctx = false ->
      exists a : AppError,
        handle maskedMessage joinFieldErrors
          (NewAuthMiddleware authStrategy tokenCheckFunc rest) ctx
          = (AbortWithStatusJSON (Abort (Error_ ctx pushed)) (HttpStatus a)
               (NewErrorResponse (AppErr a)), None)
        /\ HttpStatus a <> 401
        /\ (GoStrings.Contains authStrategy "connection reset by peer" = false ->
            GoStrings.Contains authStrategy "broken pipe" = false ->
            a = Ungerr.InternalServerError maskedMessage /\ HttpStatus a = 500)
        /\ (GoStrings.Contains authStrategy "connection reset by peer" = true
            \/ GoStrings.Contains authStrategy "broken pipe" = true ->
            a = Ungerr.BadRequestError "connection error")).
Proof.
  intros Hs hard pushed.
  assert (Hx : extractToken ctx authStrategy = ("", "", Some hard)).
  { unfold extractToken. apply String.eqb_neq in Hs. rewrite Hs. reflexivity. }
  assert (Hm : NewAuthMiddleware authStrategy tokenCheckFunc rest ctx
               = (Abort (Error_ ctx pushed), None)).
  { unfold NewAuthMiddleware. rewrite Hx. reflexivity. }
  split; [exact Hx|]. split; [exact Hm|]. split; [discriminate|].
  intros Hna.
  exists (constructAppError maskedMessage joinFieldErrors pushed (Abort (Error_ ctx pushed))).
  split.
  { apply handle_untyped.
    - unfold Next. rewrite Hna. exact Hm.
    - apply Last_Abort_Error.
    - discriminate. }
  rewrite (constructAppError_unwrapped pushed _ hard eq_refl).
  simpl errKindOf. cbv iota. unfold hard. simpl Error.
  rewrite unsupported_text_not_EOF, unsupported_text_Contains_reset,
          unsupported_text_Contains_pipe.
  destruct (GoStrings.Contains authStrategy "connection reset by peer");
    destruct (GoStrings.Contains authStrategy "broken pipe"); simpl.
  all: split; [discriminate|].
  all: split; [intros; try discriminate; auto|].
  all: intros [H|H]; try discriminate; reflexivity.
Qed.

End Classifier.

(* ===================================================================== *)
(** ** The theorems on the requests of the tests *)
(* ===================================================================== *)

(** Of several errors the last one decides (the test with two errors). *)
Example handle_last_error_wins :
  map (fun r => (r.1, Message r.2))
      (responses (handle sampleMasked sampleJoin
                    (fun c => (Error_ (Error_ c (errors_New "first error"))
                                      (AppErr (Ungerr.BadRequestError "second error")), None))
                    emptyContext).1)
  = [(400, "second error")].
Proof. vm_compute. reflexivity. Qed.

(** An error that was never wrapped is masked. *)
Example handle_plain_error_is_masked :
  map (fun r => (r.1, Message r.2))
      (responses (handle sampleMasked sampleJoin
                    (fun c => (Error_ c (errors_New "plain error"), None))
                    emptyContext).1)
  = [(500, sampleMasked)].
Proof. vm_compute. reflexivity. Qed.

(** [io.EOF] wrapped once is a missing body; wrapped twice, the error that
    [eris.Unwrap] returns is the inner eris error, of text "a: EOF", and the
    answer is the masked one. *)
Example handle_EOF_wrapped_once_and_twice :
  map (fun r => (r.1, Message r.2))
      (responses (handle sampleMasked sampleJoin
                    (fun c => (Error_ c (Eris.Wrap io_EOF "request body error"), None))
                    emptyContext).1)
  = [(400, "missing request body")]
  /\ map (fun r => (r.1, Message r.2))
      (responses (handle sampleMasked sampleJoin
                    (fun c => (Error_ c (Eris.Wrap (Eris.Wrap io_EOF "a") "b"), None))
                    emptyContext).1)
  = [(500, sampleMasked)].
Proof. split; vm_compute; reflexivity. Qed.

(** After a normal return the middleware does not read [Written()]: a
    handler that wrote a response and recorded an error gets the error
    response written after its own. *)
Example handle_writes_after_a_written_response :
  map (fun r => (r.1, Message r.2))
      (responses (handle sampleMasked sampleJoin
                    (fun c => (Error_ (mkContext ∅ ∅ [] false true
                                         [(200, mkJSONResponse "ok" AnyNil None zeroPagination)])
                                      (AppErr (Ungerr.BadRequestError "invalid input")), None))
                    emptyContext).1)
  = [(200, "ok"); (400, "invalid input")].
Proof. vm_compute. reflexivity. Qed.

(** The scenario of the spec: a type mismatch on field "age", wrapped once
    by the binding helper, is answered 400 "invalid value for field age". *)
Lemma classifier_maps_by_category_witness :
  HttpStatus (constructAppError sampleMasked sampleJoin
      (Eris.Wrap (json_UnmarshalTypeError "json: cannot unmarshal string" "age")
                 "failed to bind request")
      (Error_ emptyContext
         (Eris.Wrap (json_UnmarshalTypeError "json: cannot unmarshal string" "age")
                    "failed to bind request"))) = 400
  /\ ErrorText (constructAppError sampleMasked sampleJoin
      (Eris.Wrap (json_UnmarshalTypeError "json: cannot unmarshal string" "age")
                 "failed to bind request")
      (Error_ emptyContext
         (Eris.Wrap (json_UnmarshalTypeError "json: cannot unmarshal string" "age")
                    "failed to bind request"))) = "invalid value for field age".
Proof.
  destruct (classifier_maps_by_category sampleMasked sampleJoin
              (Error_ emptyContext
                 (Eris.Wrap (json_UnmarshalTypeError "json: cannot unmarshal string" "age")
                            "failed to bind request"))
              (Eris.Wrap (json_UnmarshalTypeError "json: cannot unmarshal string" "age")
                         "failed to bind request")
              (json_UnmarshalTypeError "json: cannot unmarshal string" "age")
              eq_refl ltac:(discriminate) eq_refl)
    as (_ & _ & _ & Hfield & _).
  exact (Hfield "age" eq_refl).
Defined.

(** The not-found error of the integration test goes out as it came in. *)
Lemma typed_error_passes_through_witness :
  responses (handle sampleMasked sampleJoin
               (fun c => (Error_ c (AppErr (Ungerr.NotFoundError "resource not found")), None))
               emptyContext).1
  = [(404, mkJSONResponse "resource not found" AnyNil
             (Some (AppErr (Ungerr.NotFoundError "resource not found"))) zeroPagination)].
Proof.
  destruct (typed_error_passes_through sampleMasked sampleJoin
              (fun c => (Error_ c (AppErr (Ungerr.NotFoundError "resource not found")), None))
              emptyContext
              (Error_ emptyContext (AppErr (Ungerr.NotFoundError "resource not found")))
              [] (Ungerr.NotFoundError "resource not found") eq_refl eq_refl)
    as (_ & Hresp & _).
  exact Hresp.
Defined.

(** The scenario of the spec: a nil-pointer fault before any write gets one
    masked 500; the same fault after a write of the handler gets nothing. *)
Lemma recovery_guard_writes_at_most_once_witness :
  responses (handle sampleMasked sampleJoin
               (fun c => (c, Some (PanicRuntimeError
                  "runtime error: invalid memory address or nil pointer dereference")))
               emptyContext).1
    = [(500, NewErrorResponse (AppErr (Ungerr.InternalServerError sampleMasked)))]
  /\ (handle sampleMasked sampleJoin
        (fun c => (mkContext ∅ ∅ [] false true [(200, mkJSONResponse "ok" AnyNil None zeroPagination)],
                   Some (PanicString "boom")))
        emptyContext).1
     = mkContext ∅ ∅ [] false true [(200, mkJSONResponse "ok" AnyNil None zeroPagination)].
Proof.
  split.
  - destruct (recovery_guard_writes_at_most_once sampleMasked sampleJoin
                (fun c => (c, Some (PanicRuntimeError
                   "runtime error: invalid memory address or nil pointer dereference")))
                emptyContext emptyContext _ eq_refl)
      as (_ & Hfresh & _).
    destruct (Hfresh eq_refl) as (Hresp & _). exact Hresp.
  - destruct (recovery_guard_writes_at_most_once sampleMasked sampleJoin
                (fun c => (mkContext ∅ ∅ [] false true
                             [(200, mkJSONResponse "ok" AnyNil None zeroPagination)],
                           Some (PanicString "boom")))
                emptyContext _ _ eq_refl)
      as (_ & _ & Hwritten & _).
    exact (Hwritten eq_refl).
Defined.

(** The scenario of the spec: no Authorization header, 401 "missing token". *)
Lemma missing_header_is_missing_token_witness :
  extractBearerToken emptyContext = ("", "missing token")
  /\ map (fun r => (r.1, Message r.2))
         (responses (handle sampleMasked sampleJoin
                       (NewAuthMiddleware "Bearer" sampleCheck lastHandler) emptyContext).1)
     = [(401, "missing token")].
Proof.
  destruct (missing_header_is_missing_token sampleMasked sampleJoin sampleCheck lastHandler
              emptyContext (or_introl eq_refl))
    as (Hx & _ & _ & _ & Hguard).
  split; [exact Hx|].
  rewrite (Hguard eq_refl). reflexivity.
Defined.

(** The role 123 of the tests, which is not a string. *)
Lemma permission_without_known_role_is_internal_fault_witness :
  map (fun r => (r.1, Message r.2))
      (responses (handle sampleMasked sampleJoin
                    (NewPermissionMiddleware "role" "read" samplePermissions lastHandler)
                    (Set_ emptyContext "role" (AnyInt 123))).1)
  = [(500, sampleMasked)].
Proof.
  destruct (permission_without_known_role_is_internal_fault sampleMasked sampleJoin
              "role" "read" samplePermissions lastHandler (Set_ emptyContext "role" (AnyInt 123)))
    as (e & _ & _ & _ & Hguard).
  - right. left. exists (AnyInt 123). split; [reflexivity|discriminate].
  - rewrite (Hguard eq_refl). reflexivity.
Defined.

(** C3 as stated fails: with no role in the store the authorizer records an
    eris error, not a forbidden one, and the response is a 500, where the
    insufficient permission of a viewer gets the 403. *)
Lemma permission_without_role_is_not_forbidden :
  Last (NewPermissionMiddleware "role" "read" samplePermissions lastHandler emptyContext).1
    = Some (ErisRoot "role not found in context or invalid type" None)
  /\ map fst (responses (handle sampleMasked sampleJoin
                (NewPermissionMiddleware "role" "read" samplePermissions lastHandler)
                emptyContext).1) = [500]
  /\ map fst (responses (handle sampleMasked sampleJoin
                (NewPermissionMiddleware "role" "read" samplePermissions lastHandler)
                (Set_ emptyContext "role" (AnyString "unknown"))).1) = [500]
  /\ map fst (responses (handle sampleMasked sampleJoin
                (NewPermissionMiddleware "role" "write" samplePermissions lastHandler)
                (Set_ emptyContext "role" (AnyString "viewer"))).1) = [403]
  /\ ~ (exists body,
          responses (handle sampleMasked sampleJoin
                       (NewPermissionMiddleware "role" "read" samplePermissions lastHandler)
                       emptyContext).1 = [(403, body)]).
Proof.
  split; [vm_compute; reflexivity|].
  split; [vm_compute; reflexivity|].
  split; [vm_compute; reflexivity|].
  split; [vm_compute; reflexivity|].
  intros [body H]. apply (f_equal (map fst)) in H. vm_compute in H. discriminate H.
Qed.

(** The strategy name of the tests. *)
Lemma unsupported_strategy_is_internal_fault_witness :
  extractToken (withHeader "Bearer valid_token") "UnsupportedStrategy"
    = ("", "", Some (ErisRoot "unsupported auth strategy: UnsupportedStrategy" None))
  /\ map (fun r => (r.1, Message r.2))
         (responses (handle sampleMasked sampleJoin
                       (NewAuthMiddleware "UnsupportedStrategy" sampleCheck lastHandler)
                       (withHeader "Bearer valid_token")).1)
     = [(500, sampleMasked)].
Proof.
  destruct (unsupported_strategy_is_internal_fault sampleMasked sampleJoin
              "UnsupportedStrategy" sampleCheck lastHandler (withHeader "Bearer valid_token")
              ltac:(discriminate))
    as (Hx & _ & _ & Hguard).
  split; [exact Hx|].
  destruct (Hguard eq_refl) as (a & Hrun & _ & Hmasked & _).
  destruct (Hmasked eq_refl eq_refl) as (-> & _).
  rewrite Hrun. reflexivity.
Defined.

(** C8 as stated fails: the hard error of the strategy named "broken pipe"
    carries that name in its text, the classifier takes it for a transport
    error, and the response is 400 "connection error", not a masked 500. *)
Lemma unsupported_strategy_named_broken_pipe_is_400 :
  "broken pipe" <> "Bearer"
  /\ extractToken (withHeader "Bearer valid_token") "broken pipe"
     = ("", "", Some (ErisRoot "unsupported auth strategy: broken pipe" None))
  /\ map (fun r => (r.1, Message r.2))
         (responses (handle sampleMasked sampleJoin
                       (NewAuthMiddleware "broken pipe" sampleCheck lastHandler)
                       (withHeader "Bearer valid_token")).1)
     = [(400, "connection error")]
  /\ ~ (exists body,
          responses (handle sampleMasked sampleJoin
                       (NewAuthMiddleware "broken pipe" sampleCheck lastHandler)
                       (withHeader "Bearer valid_token")).1 = [(500, body)]).
Proof.
  split; [discriminate|].
  split; [vm_compute; reflexivity|].
  split; [vm_compute; reflexivity|].
  intros [body H]. apply (f_equal (map fst)) in H. vm_compute in H. discriminate H.
Qed.

(* ===================================================================== *)
(** ** More on extraction, the middlewares and the helpers *)
(* ===================================================================== *)

(** Two parts come from exactly one separator. *)
Lemma Split_two_inv (s : string) (sep : ascii) (a b : string) :
  GoStrings.Split s sep = [a; b] ->
  s = a +:+ String sep b /\ GoStrings.Count a sep = 0%nat /\ GoStrings.Count b sep = 0%nat.
Proof.
  revert a. induction s as [|c r IH]; intros a; simpl; [discriminate|].
  destruct (Ascii.eqb_spec c sep) as [->|Hne].
  - intros H. injection H as <- Hr.
    assert (Hc : GoStrings.Count r sep = 0%nat).
    { pose proof (Split_length r sep) as Hl. rewrite Hr in Hl. simpl in Hl. lia. }
    rewrite (Split_no_sep r sep Hc) in Hr. injection Hr as <-.
    simpl. auto.
  - destruct (GoStrings.Split r sep) as [|p ps] eqn:E; [discriminate|].
    intros H. injection H as <- ->.
    destruct (IH p eq_refl) as (-> & Ha & Hb).
    simpl. apply Ascii.eqb_neq in Hne. rewrite Hne. auto.
Qed.

(** X1. Bearer extraction ends in one of three ways: the missing token for an
    empty header; the invalid token for a non-empty one; or a token, and then
    the header is a scheme that is "bearer" up to case, one space and that
    token, which holds no space. *)
Theorem bearer_extraction_outcomes (ctx : Context) :
  (GetHeader ctx "Authorization" = ""
   /\ extractBearerToken ctx = ("", ErrMissingToken))
  \/ (GetHeader ctx "Authorization" <> ""
      /\ extractBearerToken ctx = ("", ErrInvalidToken))
  \/ (exists scheme credential,
        GetHeader ctx "Authorization" = scheme +:+ " " +:+ credential
        /\ GoStrings.ToLower scheme = "bearer"
        /\ GoStrings.Count credential " " = 0%nat
        /\ extractBearerToken ctx = (credential, "")).
Proof.
  unfold extractBearerToken.
  destruct (String.eqb_spec (GetHeader ctx "Authorization") "") as [He|He]; [auto|].
  right.
  rewrite validate_spec.
  destruct (GoStrings.Split (GetHeader ctx "Authorization") " ") as [|a [|b [|c l]]] eqn:E; auto.
  destruct (String.eqb_spec (GoStrings.ToLower a) "bearer") as [Hs|Hs]; auto.
  right. exists a, b.
  destruct (Split_two_inv _ _ _ _ E) as (Hf & _ & Hb).
  auto.
Qed.


(** The loop of inserts over a list of entries with distinct keys. *)
Lemma setAllInOrder_spec (entries : list (string * any)) : forall ctx : Context,
  NoDup entries.*1 ->
  setAllInOrder entries ctx =
    mkContext (Header ctx) (list_to_map entries ∪ Keys ctx) (Gin.Errors ctx)
              (aborted ctx) (written ctx) (responses ctx).
Proof.
  unfold setAllInOrder.
  induction entries as [|[key val] entries IH]; intros ctx Hnd; simpl.
  - rewrite (left_id_L ∅ (∪)). destruct ctx; reflexivity.
  - inversion Hnd as [|? ? Hnotin Hnd']; subst.
    rewrite (IH _ Hnd'). unfold Set_; simpl. f_equal.
    rewrite <- insert_union_l, <- insert_union_r; [reflexivity|].
    apply not_elem_of_list_to_map_1. exact Hnotin.
Qed.

(** X2. The order in which the entries of the attributes are visited does
    not change the store the loop builds. *)
Theorem attribute_merge_ignores_iteration_order
    (data : gmap string any) (entries : list (string * any)) (ctx : Context) :
  entries ≡ₚ map_to_list data ->
  setAllInOrder entries ctx = setAll data ctx.
Proof.
  intros Hperm.
  assert (Hnd : NoDup entries.*1).
  { rewrite Hperm. apply NoDup_fst_map_to_list. }
  rewrite (setAllInOrder_spec entries ctx Hnd), setAll_spec.
  f_equal. f_equal.
  rewrite <- (list_to_map_to_list data).
  apply list_to_map_proper; [exact Hnd|exact Hperm].
Qed.

(** X3. Two merges are the merge of the union, the later attributes
    winning; a merge done twice is done once. *)
Theorem attribute_merges_compose (first second : gmap string any) (ctx : Context) :
  setAll second (setAll first ctx) = setAll (second ∪ first) ctx
  /\ setAll first (setAll first ctx) = setAll first ctx.
Proof.
  rewrite !setAll_spec; simpl. split.
  - rewrite (assoc_L (∪)). reflexivity.
  - rewrite (assoc_L (∪)), (idemp_L (∪)). reflexivity.
Qed.

Section GuardedAuth.
Variable maskedMessage : string.
Variable joinFieldErrors : list string -> string.

(** X4. A malformed header is refused with the unauthorized error "invalid
    token" before the check function is asked, and written as 401. *)
Theorem auth_invalid_header_is_invalid_token
    (tokenCheckFunc : TokenCheckFunc) (rest : HandlerFunc) (ctx : Context) :
  GetHeader ctx "Authorization" <> "" ->
  List.length (GoStrings.Split (GetHeader ctx "Authorization") " ") <> 2%nat
  \/ GoStrings.ToLower (nth 0 (GoStrings.Split (GetHeader ctx "Authorization") " ") "")
     <> "bearer" ->
  NewAuthMiddleware "Bearer" tokenCheckFunc rest ctx =
    (Abort (Error_ ctx (AppErr (mkAppError 401 "invalid token" []))), None)
  /\ (IsAborted ctx = false ->
      responses (handle maskedMessage joinFieldErrors
                   (NewAuthMiddleware "Bearer" tokenCheckFunc rest) ctx).1
      = responses ctx ++
        [(401, mkJSONResponse "invalid token" AnyNil
                 (Some (AppErr (mkAppError 401 "invalid token" []))) zeroPagination)]).
Proof.
  intros Hne Hbad.
  assert (He : extractBearerToken ctx = ("", ErrInvalidToken)).
  { unfold extractBearerToken.
    destruct (String.eqb_spec (GetHeader ctx "Authorization") "") as [E|_]; [contradiction|].
    rewrite validate_spec.
    destruct (GoStrings.Split (GetHeader ctx "Authorization") " ") as [|a [|b [|c l]]];
      simpl in *; try reflexivity.
    destruct (String.eqb_spec (GoStrings.ToLower a) "bearer") as [E|E]; [|reflexivity].
    destruct Hbad as [Hbad|Hbad]; contradiction. }
  assert (Hm : NewAuthMiddleware "Bearer" tokenCheckFunc rest ctx =
    (Abort (Error_ ctx (AppErr (mkAppError 401 "invalid token" []))), None)).
  { unfold NewAuthMiddleware, extractToken. simpl. rewrite He. reflexivity. }
  split; [exact Hm|].
  intros Hna.
  rewrite (handle_after_abort_typed maskedMessage joinFieldErrors _ ctx ctx _ Hna Hm).
  reflexivity.
Qed.

(** X5. A token the check function does not find is refused with the
    unauthorized error "user not found", written as 401; attributes returned
    with the answer are dropped. *)
Theorem auth_unknown_user_is_user_not_found
    (authStrategy : string) (tokenCheckFunc : TokenCheckFunc) (rest : HandlerFunc)
    (ctx : Context) (token : string) (data : gmap string any) :
  extractToken ctx authStrategy = (token, "", None) ->
  tokenCheckFunc ctx token = (false, data, None) ->
  NewAuthMiddleware authStrategy tokenCheckFunc rest ctx =
    (Abort (Error_ ctx (AppErr (mkAppError 401 "user not found" []))), None)
  /\ (IsAborted ctx = false ->
      responses (handle maskedMessage joinFieldErrors
                   (NewAuthMiddleware authStrategy tokenCheckFunc rest) ctx).1
      = responses ctx ++
        [(401, mkJSONResponse "user not found" AnyNil
                 (Some (AppErr (mkAppError 401 "user not found" []))) zeroPagination)]).
Proof.
  intros Hx Hc.
  assert (Hm : NewAuthMiddleware authStrategy tokenCheckFunc rest ctx =
    (Abort (Error_ ctx (AppErr (mkAppError 401 "user not found" []))), None)).
  { unfold NewAuthMiddleware. rewrite Hx. simpl. rewrite Hc. reflexivity. }
  split; [exact Hm|].
  intros Hna.
  rewrite (handle_after_abort_typed maskedMessage joinFieldErrors _ ctx ctx _ Hna Hm).
  reflexivity.
Qed.

(** X6. An error of the check function is recorded as it is, whatever came
    with it; a typed one is written with its own status and message. *)
Theorem auth_check_error_reaches_response
    (authStrategy : string) (tokenCheckFunc : TokenCheckFunc) (rest : HandlerFunc)
    (ctx : Context) (token : string) (found : bool) (data : gmap string any)
    (err : error) :
  extractToken ctx authStrategy = (token, "", None) ->
  tokenCheckFunc ctx token = (found, data, Some err) ->
  NewAuthMiddleware authStrategy tokenCheckFunc rest ctx = (Abort (Error_ ctx err), None)
  /\ (forall a, err = AppErr a -> IsAborted ctx = false ->
      responses (handle maskedMessage joinFieldErrors
                   (NewAuthMiddleware authStrategy tokenCheckFunc rest) ctx).1
      = responses ctx ++
        [(HttpStatus a,
          mkJSONResponse (ErrorText a) AnyNil (Some (AppErr a)) zeroPagination)]).
Proof.
  intros Hx Hc.
  assert (Hm : NewAuthMiddleware authStrategy tokenCheckFunc rest ctx
               = (Abort (Error_ ctx err), None)).
  { unfold NewAuthMiddleware. rewrite Hx. simpl. rewrite Hc. reflexivity. }
  split; [exact Hm|].
  intros a -> Hna.
  rewrite (handle_after_abort_typed maskedMessage joinFieldErrors _ ctx ctx _ Hna Hm).
  reflexivity.
Qed.

End GuardedAuth.


Lemma slicesContains_In (l : list string) (x : string) :
  slicesContains l x = true <-> In x l.
Proof.
  unfold slicesContains. rewrite existsb_exists. split.
  - intros (y & Hy & He). apply String.eqb_eq in He. subst. exact Hy.
  - intros H. exists x. split; [exact H|apply String.eqb_refl].
Qed.

(** X7. The permission middleware runs the rest of the chain, on the context
    it received, exactly when the role is a non-empty string whose
    permissions hold the required one; otherwise it records one error and
    aborts. *)
Theorem permission_gate_is_read_only
    (roleContextKey requiredPermission : string)
    (permissionMap : gmap string (list string)) (rest : HandlerFunc) (ctx : Context) :
  ((exists role permissions,
      Keys ctx !! roleContextKey = Some (AnyString role) /\ role <> ""
      /\ permissionMap !! role = Some permissions /\ In requiredPermission permissions) ->
   NewPermissionMiddleware roleContextKey requiredPermission permissionMap rest ctx
     = Next rest ctx)
  /\ (~ (exists role permissions,
          Keys ctx !! roleContextKey = Some (AnyString role) /\ role <> ""
          /\ permissionMap !! role = Some permissions /\ In requiredPermission permissions) ->
      exists e, NewPermissionMiddleware roleContextKey requiredPermission permissionMap rest ctx
                  = (Abort (Error_ ctx e), None)).
Proof.
  unfold NewPermissionMiddleware, GetString. split.
  - intros (role & perms & -> & Hne & Hp & Hin).
    apply String.eqb_neq in Hne. rewrite Hne, Hp.
    apply slicesContains_In in Hin. rewrite Hin. reflexivity.
  - intros Hno.
    destruct (Keys ctx !! roleContextKey) as [[|role| |]|] eqn:Hk;
      try (eexists; reflexivity).
    destruct (String.eqb_spec role "") as [->|Hne]; [eexists; reflexivity|].
    destruct (permissionMap !! role) as [perms|] eqn:Hp; [|eexists; reflexivity].
    destruct (slicesContains perms requiredPermission) eqn:Hc; [|eexists; reflexivity].
    exfalso. apply Hno. exists role, perms. apply slicesContains_In in Hc. auto.
Qed.

Section GuardedPermission.
Variable maskedMessage : string.
Variable joinFieldErrors : list string -> string.

(** X8. A known role without the required permission is refused with the
    forbidden error, written as 403 "user does not have the required
    permission". *)
Theorem permission_missing_is_forbidden
    (roleContextKey requiredPermission role : string) (permissions : list string)
    (permissionMap : gmap string (list string)) (rest : HandlerFunc) (ctx : Context) :
  Keys ctx !! roleContextKey = Some (AnyString role) ->
  role <> "" ->
  permissionMap !! role = Some permissions ->
  ~ In requiredPermission permissions ->
  NewPermissionMiddleware roleContextKey requiredPermission permissionMap rest ctx
    = (Abort (Error_ ctx (AppErr (mkAppError 403 ErrNoPermission []))), None)
  /\ (IsAborted ctx = false ->
      responses (handle maskedMessage joinFieldErrors
                   (NewPermissionMiddleware roleContextKey requiredPermission permissionMap rest)
                   ctx).1
      = responses ctx ++
        [(403, mkJSONResponse "user does not have the required permission" AnyNil
                 (Some (AppErr (mkAppError 403 ErrNoPermission []))) zeroPagination)]).
Proof.
  intros Hk Hne Hp Hnot.
  assert (Hm : NewPermissionMiddleware roleContextKey requiredPermission permissionMap rest ctx
    = (Abort (Error_ ctx (AppErr (mkAppError 403 ErrNoPermission []))), None)).
  { unfold NewPermissionMiddleware, GetString. rewrite Hk.
    apply String.eqb_neq in Hne. rewrite Hne, Hp.
    destruct (slicesContains permissions requiredPermission) eqn:Hc; [|reflexivity].
    apply slicesContains_In in Hc. contradiction. }
  split; [exact Hm|].
  intros Hna.
  rewrite (handle_after_abort_typed maskedMessage joinFieldErrors _ ctx ctx _ Hna Hm).
  reflexivity.
Qed.

End GuardedPermission.

(** X9. Behind the authentication middleware the permission middleware
    judges the role the check function returned, not one the store held
    before. *)
Theorem authenticated_role_decides_permission
    (authStrategy roleContextKey requiredPermission role : string)
    (tokenCheckFunc : TokenCheckFunc) (permissionMap : gmap string (list string))
    (permissions : list string) (rest : HandlerFunc)
    (ctx : Context) (token : string) (data : gmap string any) :
  IsAborted ctx = false ->
  extractToken ctx authStrategy = (token, "", None) ->
  tokenCheckFunc ctx token = (true, data, None) ->
  data !! roleContextKey = Some (AnyString role) ->
  role <> "" ->
  permissionMap !! role = Some permissions ->
  (In requiredPermission permissions ->
   NewAuthMiddleware authStrategy tokenCheckFunc
     (NewPermissionMiddleware roleContextKey requiredPermission permissionMap rest) ctx
   = rest (setAll data ctx))
  /\ (~ In requiredPermission permissions ->
      NewAuthMiddleware authStrategy tokenCheckFunc
        (NewPermissionMiddleware roleContextKey requiredPermission permissionMap rest) ctx
      = (Abort (Error_ (setAll data ctx) (AppErr (mkAppError 403 ErrNoPermission []))), None)).
Proof.
  intros Hna Hx Hc Hrole Hne Hp.
  assert (Hrun : NewAuthMiddleware authStrategy tokenCheckFunc
     (NewPermissionMiddleware roleContextKey requiredPermission permissionMap rest) ctx
     = NewPermissionMiddleware roleContextKey requiredPermission permissionMap rest
         (setAll data ctx)).
  { unfold NewAuthMiddleware. rewrite Hx. simpl. rewrite Hc. simpl.
    unfold Next. rewrite setAll_spec. unfold IsAborted in *. simpl. rewrite Hna.
    reflexivity. }
  rewrite Hrun.
  unfold NewPermissionMiddleware, GetString.
  rewrite (setAll_lookup_new data ctx roleContextKey _ Hrole).
  apply String.eqb_neq in Hne. rewrite Hne, Hp.
  split; intros Hin.
  - apply slicesContains_In in Hin. rewrite Hin. simpl.
    unfold Next. rewrite setAll_spec. unfold IsAborted in *. simpl. rewrite Hna.
    reflexivity.
  - destruct (slicesContains permissions requiredPermission) eqn:Hcn; [|reflexivity].
    apply slicesContains_In in Hcn. contradiction.
Qed.


Section GuardFacts.
Variable maskedMessage : string.
Variable joinFieldErrors : list string -> string.

(** What the classifier can answer. *)
Lemma constructAppError_cases (err : error) (ctx : Context) :
  (exists fieldErrors,
     constructAppError maskedMessage joinFieldErrors err ctx
       = Ungerr.ValidationError joinFieldErrors fieldErrors)
  \/ (exists msg,
        constructAppError maskedMessage joinFieldErrors err ctx = Ungerr.BadRequestError msg)
  \/ constructAppError maskedMessage joinFieldErrors err ctx
       = Ungerr.InternalServerError maskedMessage.
Proof.
  destruct (Eris.Unwrap err) as [u|] eqn:Hw.
  - rewrite (constructAppError_unwrapped maskedMessage joinFieldErrors err ctx u Hw).
    destruct (errKindOf u); eauto.
    destruct (String.eqb (Error u) "EOF"); eauto.
    destruct (GoStrings.Contains (Error u) "connection reset by peer"
              || GoStrings.Contains (Error u) "broken pipe"); eauto.
  - rewrite (constructAppError_not_wrapped maskedMessage joinFieldErrors err ctx Hw). auto.
Qed.

(** X10. The classifier only answers 400, 422 or 500. *)
Theorem classifier_status_is_400_422_or_500 (err : error) (ctx : Context) :
  HttpStatus (constructAppError maskedMessage joinFieldErrors err ctx) = 400
  \/ HttpStatus (constructAppError maskedMessage joinFieldErrors err ctx) = 422
  \/ HttpStatus (constructAppError maskedMessage joinFieldErrors err ctx) = 500.
Proof.
  destruct (constructAppError_cases err ctx) as [[fs ->]|[[msg ->]| ->]]; simpl; auto.
Qed.

(** X11. The error middleware always returns normally, adds at most one
    response and touches neither the error list nor the store. *)
Theorem guard_contains_panics_and_writes_at_most_once (rest : HandlerFunc) (ctx : Context) :
  (handle maskedMessage joinFieldErrors rest ctx).2 = None
  /\ exists added,
       responses (handle maskedMessage joinFieldErrors rest ctx).1
         = responses (Next rest ctx).1 ++ added
       /\ (List.length added <= 1)%nat
       /\ Gin.Errors (handle maskedMessage joinFieldErrors rest ctx).1
          = Gin.Errors (Next rest ctx).1
       /\ Keys (handle maskedMessage joinFieldErrors rest ctx).1 = Keys (Next rest ctx).1.
Proof.
  unfold handle. destruct (Next rest ctx) as [c [r|]]; simpl.
  - split; [reflexivity|]. unfold handlePanic.
    destruct (Written c); simpl.
    + exists []. rewrite app_nil_r. simpl. auto.
    + eexists [_]. simpl. auto.
  - destruct (Last c) as [[a| | |]|]; simpl;
      (split; [reflexivity|]);
      try (eexists [_]; simpl; auto; fail).
    exists []. rewrite app_nil_r. simpl. auto.
Qed.

(** X12. The error middleware changes nothing exactly when the chain returned
    normally without an error, or panicked after a response was written. *)
Theorem guard_is_silent_exactly_when (rest : HandlerFunc) (ctx ctx' : Context)
    (panic : option PanicValue) :
  Next rest ctx = (ctx', panic) ->
  (handle maskedMessage joinFieldErrors rest ctx).1 = ctx'
  <-> (panic = None /\ Gin.Errors ctx' = [])
      \/ (panic <> None /\ Written ctx' = true).
Proof.
  intros Hn. unfold handle. rewrite Hn.
  assert (Hgrow : forall c code obj, AbortWithStatusJSON c code obj <> c).
  { intros c code obj H. apply (f_equal (fun x => List.length (responses x))) in H.
    simpl in H. rewrite length_app in H. simpl in H. lia. }
  destruct panic as [r|]; simpl.
  - unfold handlePanic. destruct (Written ctx') eqn:Hw; simpl.
    + split; [right; split; [discriminate|reflexivity]|reflexivity].
    + split.
      * intros H. destruct (Hgrow _ _ _ H).
      * intros [[H _]|[_ H]]; discriminate.
  - unfold Last. destruct (Gin.Errors ctx') as [|e es] eqn:He using rev_ind; simpl.
    + split; [left; split; reflexivity|reflexivity].
    + rewrite last_snoc.
      split.
      * intros H. destruct e; simpl in H; destruct (Hgrow _ _ _ H).
      * intros [[_ H]|[H _]]; [|congruence].
        destruct es; discriminate.
Qed.

(** X13. The response written after a normal return depends on the last
    error only. *)
Theorem last_error_alone_decides_response (err : error) :
  exists response : Z * JSONResponse,
    forall (rest : HandlerFunc) (ctx ctx' : Context) (earlier : list error),
      Next rest ctx = (ctx', None) ->
      Gin.Errors ctx' = earlier ++ [err] ->
      responses (handle maskedMessage joinFieldErrors rest ctx).1
        = responses ctx' ++ [response].
Proof.
  exists (match err with
          | AppErr a => (HttpStatus a, NewErrorResponse (AppErr a))
          | _ => (HttpStatus (constructAppError maskedMessage joinFieldErrors err emptyContext),
                  NewErrorResponse
                    (AppErr (constructAppError maskedMessage joinFieldErrors err emptyContext)))
          end).
  intros rest ctx ctx' earlier Hn He.
  unfold handle, Last. rewrite Hn, He, last_snoc.
  destruct err; reflexivity.
Qed.

End GuardFacts.


Section GuardFacts2.
Variable maskedMessage : string.
Variable joinFieldErrors : list string -> string.

(** X14. An error that holds nothing to unwrap is masked, whatever its type
    and text. *)
Theorem never_wrapped_error_is_masked
    (rest : HandlerFunc) (ctx ctx' : Context) (earlier : list error) (err : error) :
  Next rest ctx = (ctx', None) ->
  Gin.Errors ctx' = earlier ++ [err] ->
  (forall a, err <> AppErr a) ->
  Eris.Unwrap err = None ->
  responses (handle maskedMessage joinFieldErrors rest ctx).1
    = responses ctx' ++
      [(500, NewErrorResponse (AppErr (Ungerr.InternalServerError maskedMessage)))].
Proof.
  intros Hn He Hu Hw.
  rewrite (handle_untyped maskedMessage joinFieldErrors rest ctx ctx' err Hn).
  - rewrite (constructAppError_not_wrapped maskedMessage joinFieldErrors err ctx' Hw).
    reflexivity.
  - unfold Last. rewrite He. apply last_snoc.
  - exact Hu.
Qed.

(** X15. A typed application error inside an eris wrapper is classified by
    its text: with an ordinary text the answer is the masked 500, not the
    status it carried. *)
Theorem wrapped_typed_error_loses_its_status (a : AppError) (msg : string) (ctx : Context) :
  ErrorText a <> "EOF" ->
  GoStrings.Contains (ErrorText a) "connection reset by peer" = false ->
  GoStrings.Contains (ErrorText a) "broken pipe" = false ->
  constructAppError maskedMessage joinFieldErrors (Eris.Wrap (AppErr a) msg) ctx
    = Ungerr.InternalServerError maskedMessage.
Proof.
  intros He Hr Hp.
  rewrite (constructAppError_unwrapped maskedMessage joinFieldErrors
             (Eris.Wrap (AppErr a) msg) ctx (AppErr a) eq_refl).
  simpl. apply String.eqb_neq in He. rewrite He, Hr, Hp. reflexivity.
Qed.

(** X16. After two wraps the type switch sees an eris error: only the text
    tests apply, and the answer is never 422. *)
Theorem twice_wrapped_error_is_classified_by_text
    (err : error) (inner outer : string) (ctx : Context) :
  constructAppError maskedMessage joinFieldErrors
    (Eris.Wrap (Eris.Wrap err inner) outer) ctx
  = (if String.eqb (Error (Eris.Wrap err inner)) "EOF"
     then Ungerr.BadRequestError "missing request body"
     else if GoStrings.Contains (Error (Eris.Wrap err inner)) "connection reset by peer"
             || GoStrings.Contains (Error (Eris.Wrap err inner)) "broken pipe"
          then Ungerr.BadRequestError "connection error"
          else Ungerr.InternalServerError maskedMessage)
  /\ HttpStatus (constructAppError maskedMessage joinFieldErrors
                   (Eris.Wrap (Eris.Wrap err inner) outer) ctx) <> 422.
Proof.
  assert (Hw : Eris.Unwrap (Eris.Wrap (Eris.Wrap err inner) outer)
               = Some (Eris.Wrap err inner)).
  { destruct err; reflexivity. }
  rewrite (constructAppError_unwrapped maskedMessage joinFieldErrors _ ctx _ Hw).
  assert (Hk : errKindOf (Eris.Wrap err inner) = KOther) by (destruct err; reflexivity).
  rewrite Hk. split; [reflexivity|].
  destruct (String.eqb (Error (Eris.Wrap err inner)) "EOF"); [discriminate|].
  destruct (GoStrings.Contains (Error (Eris.Wrap err inner)) "connection reset by peer"
            || GoStrings.Contains (Error (Eris.Wrap err inner)) "broken pipe");
    discriminate.
Qed.

(** X17. An error middleware inside another one: the error response is
    written twice. *)
Theorem nested_guard_repeats_error_response
    (rest : HandlerFunc) (ctx ctx' : Context) (earlier : list error) (err : error) :
  IsAborted ctx = false ->
  rest ctx = (ctx', None) ->
  Gin.Errors ctx' = earlier ++ [err] ->
  exists response,
    responses (handle maskedMessage joinFieldErrors rest ctx).1
      = responses ctx' ++ [response]
    /\ responses (handle maskedMessage joinFieldErrors
                    (handle maskedMessage joinFieldErrors rest) ctx).1
       = responses ctx' ++ [response; response].
Proof.
  intros Hna Hr He.
  assert (Hn : Next rest ctx = (ctx', None)).
  { unfold Next. rewrite Hna. exact Hr. }
  assert (Hl : Last ctx' = Some err).
  { unfold Last. rewrite He. apply last_snoc. }
  unfold handle at 2. unfold Next at 1. rewrite Hna.
  unfold handle. rewrite Hn, Hl.
  destruct err as [a| | |]; simpl.
  all: unfold Last; simpl; rewrite He, last_snoc; simpl.
  all: eexists; split; [reflexivity|].
  all: rewrite <- app_assoc; reflexivity.
Qed.

(** X18. What the error middleware writes is always an error envelope whose
    status is that of the error inside, with no data and no pagination. *)
Theorem guard_responses_are_error_envelopes (rest : HandlerFunc) (ctx : Context) :
  exists added,
    responses (handle maskedMessage joinFieldErrors rest ctx).1
      = responses (Next rest ctx).1 ++ added
    /\ forall code body, In (code, body) added ->
         exists a : AppError,
           code = HttpStatus a
           /\ body = mkJSONResponse (ErrorText a) AnyNil (Some (AppErr a)) zeroPagination
           /\ IsZero (ResponsePagination body) = true.
Proof.
  unfold handle. destruct (Next rest ctx) as [c [r|]]; simpl.
  - unfold handlePanic. destruct (Written c); simpl.
    + exists []. rewrite app_nil_r. split; [reflexivity|]. intros ? ? [].
    + eexists [_]. split; [reflexivity|].
      intros code body [H|[]]. injection H as <- <-.
      exists (Ungerr.InternalServerError maskedMessage). repeat split.
  - destruct (Last c) as [err|]; simpl.
    2: { exists []. rewrite app_nil_r. split; [reflexivity|]. intros ? ? []. }
    destruct err as [a|msg ext|msg inner|kind text unwrap]; simpl.
    + eexists [_]. split; [reflexivity|].
      intros code body [H|[]]. injection H as <- <-. exists a. repeat split.
    + eexists [_]. split; [reflexivity|].
      intros code body [H|[]]. injection H as <- <-.
      exists (constructAppError maskedMessage joinFieldErrors (ErisRoot msg ext) c).
      repeat split.
    + eexists [_]. split; [reflexivity|].
      intros code body [H|[]]. injection H as <- <-.
      exists (constructAppError maskedMessage joinFieldErrors (ErisWrap msg inner) c).
      repeat split.
    + eexists [_]. split; [reflexivity|].
      intros code body [H|[]]. injection H as <- <-.
      exists (constructAppError maskedMessage joinFieldErrors (Foreign kind text unwrap) c).
      repeat split.
Qed.

(** X19. A wrapped handler that succeeds gets its own response and nothing
    else. *)
Theorem wrapped_handler_success_writes_envelope
    (handler : Context -> Context * HandlerResult) (ctx ctx' : Context)
    (statusCode : Z) (message : string) (response : any) :
  IsAborted ctx = false ->
  handler ctx = (ctx', Returned statusCode message response None) ->
  Gin.Errors ctx' = [] ->
  handle maskedMessage joinFieldErrors (WrapHandler handler) ctx
    = (JSON ctx' statusCode (mkJSONResponse message response None zeroPagination), None)
  /\ IsAborted (handle maskedMessage joinFieldErrors (WrapHandler handler) ctx).1
     = IsAborted ctx'.
Proof.
  intros Hna Hh He.
  unfold handle, Next, WrapHandler. rewrite Hna, Hh.
  unfold Last, JSON; simpl. rewrite He. simpl. split; reflexivity.
Qed.

(** X20. A wrapped handler that returns an error gets the error response
    only; what it returned beside the error is dropped. *)
Theorem wrapped_handler_error_is_classified
    (handler : Context -> Context * HandlerResult) (ctx ctx' : Context)
    (statusCode : Z) (message : string) (response : any) (err : error) :
  IsAborted ctx = false ->
  handler ctx = (ctx', Returned statusCode message response (Some err)) ->
  exists a : AppError,
    responses (handle maskedMessage joinFieldErrors (WrapHandler handler) ctx).1
      = responses ctx' ++ [(HttpStatus a, NewErrorResponse (AppErr a))]
    /\ (forall b, err = AppErr b -> a = b)
    /\ ((forall b, err <> AppErr b) ->
        a = constructAppError maskedMessage joinFieldErrors err (Error_ ctx' err)).
Proof.
  intros Hna Hh.
  unfold handle, Next, WrapHandler. rewrite Hna, Hh.
  unfold Last, Error_; simpl. rewrite last_snoc.
  destruct err as [b| | |]; simpl.
  - exists b. split; [reflexivity|]. split; [intros ? H; injection H as <-; reflexivity|].
    intros H. destruct (H b). reflexivity.
  - eexists. split; [reflexivity|]. split; [discriminate|reflexivity].
  - eexists. split; [reflexivity|]. split; [discriminate|reflexivity].
  - eexists. split; [reflexivity|]. split; [discriminate|reflexivity].
Qed.

(** X21. The single wrap of [BindRequest] leaves the binding error where the
    classifier finds it. *)
Theorem bind_error_keeps_its_category
    (T : Type) (ShouldBindWith : Context -> T * option error)
    (ctx c : Context) (bindTypeName : string) (bound : T)
    (kind : errKind) (text : string) (unwrap : option error) :
  ShouldBindWith ctx = (bound, Some (Foreign kind text unwrap)) ->
  exists err,
    BindRequest T ShouldBindWith ctx bindTypeName = (bound, Some err)
    /\ Eris.Unwrap err = Some (Foreign kind text unwrap)
    /\ (forall fieldErrors, kind = KValidationErrors fieldErrors ->
        constructAppError maskedMessage joinFieldErrors err c
          = Ungerr.ValidationError joinFieldErrors fieldErrors)
    /\ (kind = KSyntaxError ->
        constructAppError maskedMessage joinFieldErrors err c
          = Ungerr.BadRequestError "invalid json")
    /\ (forall Field, kind = KUnmarshalTypeError Field ->
        constructAppError maskedMessage joinFieldErrors err c
          = Ungerr.BadRequestError ("invalid value for field " +:+ Field))
    /\ (kind = KEOF ->
        constructAppError maskedMessage joinFieldErrors err c
          = Ungerr.BadRequestError "missing request body").
Proof.
  intros Hb. unfold BindRequest. rewrite Hb. simpl.
  eexists. split; [reflexivity|]. split; [reflexivity|].
  repeat split; intros; subst; reflexivity.
Qed.

End GuardFacts2.


(** X22. [ctx.Set] then [GetFromContext] gives the value back; other keys
    are not affected. *)
Theorem context_value_round_trip
    (T : Type) (zero : T) (typeName : string) (assertT : any -> option T)
    (ctx : Context) (key : string) (val : any) (asserted : T) :
  assertT val = Some asserted ->
  GetFromContext T zero typeName assertT (Set_ ctx key val) key = (asserted, None)
  /\ forall other, other <> key ->
       GetFromContext T zero typeName assertT (Set_ ctx key val) other
       = GetFromContext T zero typeName assertT ctx other.
Proof.
  intros Ha. unfold GetFromContext, Get, Set_; simpl. split.
  - rewrite lookup_insert_eq, Ha. reflexivity.
  - intros other Hne. rewrite lookup_insert_ne by congruence. reflexivity.
Qed.

(** X23. [ctx.GetString] is [GetFromContext[string]] without the error. *)
Theorem GetString_is_GetFromContext_string (ctx : Context) (key : string) :
  GetString ctx key = (GetFromContext string "" "string" assertString ctx key).1
  /\ ((GetFromContext string "" "string" assertString ctx key).2 = None
      <-> exists s, Keys ctx !! key = Some (AnyString s)).
Proof.
  unfold GetString, GetFromContext, Get.
  destruct (Keys ctx !! key) as [[|s|n|b]|]; simpl; split; try reflexivity.
  all: split; [try discriminate; eauto|intros [s' H]; try discriminate; reflexivity].
Qed.

(** X24. The handlers behind a successful authentication can read every
    attribute back with [GetFromContext]. *)
Theorem authenticated_attributes_are_readable
    (T : Type) (zero : T) (typeName : string) (assertT : any -> option T)
    (authStrategy : string) (tokenCheckFunc : TokenCheckFunc) (rest : HandlerFunc)
    (ctx : Context) (token : string) (data : gmap string any) :
  IsAborted ctx = false ->
  extractToken ctx authStrategy = (token, "", None) ->
  tokenCheckFunc ctx token = (true, data, None) ->
  exists ctx',
    NewAuthMiddleware authStrategy tokenCheckFunc rest ctx = rest ctx'
    /\ forall key val asserted,
         data !! key = Some val -> assertT val = Some asserted ->
         GetFromContext T zero typeName assertT ctx' key = (asserted, None).
Proof.
  intros Hna Hx Hc. exists (setAll data ctx). split.
  - unfold NewAuthMiddleware. rewrite Hx. simpl. rewrite Hc. simpl.
    unfold Next. rewrite setAll_spec. unfold IsAborted in *. simpl. rewrite Hna.
    reflexivity.
  - intros key val asserted Hd Ha. unfold GetFromContext, Get.
    rewrite (setAll_lookup_new data ctx key val Hd), Ha. reflexivity.
Qed.

(** X25. [GetAndParseFromContext] parses stored strings only; anything else
    fails before the parser is asked. *)
Theorem get_and_parse_needs_a_string
    (T : Type) (zero : T) (ctx : Context) (key : string) :
  (forall s, Keys ctx !! key = Some (AnyString s) ->
     forall Parse, GetAndParseFromContext T zero Parse ctx key = Parse s)
  /\ ((forall s, Keys ctx !! key <> Some (AnyString s)) ->
      exists msg, forall Parse,
        GetAndParseFromContext T zero Parse ctx key = (zero, Some (ErisRoot msg None))).
Proof.
  unfold GetAndParseFromContext, GetFromContext, Get. split.
  - intros s -> Parse. reflexivity.
  - intros Hno. destruct (Keys ctx !! key) as [[|s|n|b]|]; simpl;
      try (eexists; intros Parse; reflexivity).
    destruct (Hno s). reflexivity.
Qed.

(** X26. [GetPathParam] and [GetRequiredPathParam] agree on the value and on
    the error, and differ on an absent parameter only. *)
Theorem path_param_lookups_agree
    (T : Type) (zero : T) (Parse : string -> T * option error)
    (params : list (string * string)) (key : string) :
  (ParamsGet params key = None ->
   GetPathParam T zero Parse params key = (zero, false, None)
   /\ GetRequiredPathParam T zero Parse params key
      = (zero, Some (ErisRoot ("missing path param: " +:+ key) None)))
  /\ (forall value, (GetPathParam T zero Parse params key).1 = (value, true) ->
      GetPathParam T zero Parse params key = (value, true, None)
      /\ GetRequiredPathParam T zero Parse params key = (value, None))
  /\ (forall err, (GetPathParam T zero Parse params key).2 = Some err ->
      (GetPathParam T zero Parse params key).1 = (zero, false)
      /\ (GetRequiredPathParam T zero Parse params key).2 = Some err)
  /\ (GetPathParam T zero Parse params key = (zero, false, None) ->
      ParamsGet params key = None).
Proof.
  unfold GetPathParam, GetRequiredPathParam.
  destruct (ParamsGet params key) as [paramValue|]; simpl.
  - destruct (Parse paramValue) as [parsed [e|]]; simpl.
    + split; [discriminate|]. split; [intros value H; discriminate|].
      split; [intros err H; injection H as <-; auto|discriminate].
    + split; [discriminate|].
      split; [intros value H; injection H as <-; auto|].
      split; [intros err H; discriminate|discriminate].
  - split; [auto|]. split; [intros value H; discriminate|].
    split; [intros err H; discriminate|reflexivity].
Qed.

Section Envelope.
Variable ceilQuotient : Z -> Z -> Z.

(** X27. The builders of the envelope are independent of one another. *)
Theorem envelope_builders_commute
    (jr : JSONResponse) (data data' : any) (err err' : option error)
    (queryOptions : QueryOptions) (totalData : Z) :
  WithData (WithError jr err) data = WithError (WithData jr data) err
  /\ WithPagination ceilQuotient (WithData jr data) queryOptions totalData
     = WithData (WithPagination ceilQuotient jr queryOptions totalData) data
  /\ WithPagination ceilQuotient (WithError jr err) queryOptions totalData
     = WithError (WithPagination ceilQuotient jr queryOptions totalData) err
  /\ WithData (WithData jr data) data' = WithData jr data'
  /\ WithError (WithError jr err) err' = WithError jr err'
  /\ Message (WithPagination ceilQuotient (WithError (WithData jr data) err)
                queryOptions totalData) = Message jr.
Proof.
  unfold WithPagination, WithData, WithError.
  destruct (Z.leb (Limit queryOptions) 0); simpl; repeat split.
Qed.

End Envelope.

(** X28. [IsZero] recognises the zero value and nothing else. *)
Theorem IsZero_iff_zero_value (p : Pagination) :
  IsZero p = true <-> p = zeroPagination.
Proof.
  destruct p as [t c n hn hp]. unfold IsZero, zeroPagination; simpl. split.
  - rewrite !andb_true_iff, !Z.eqb_eq, !negb_true_iff.
    intros [[[[-> ->] ->] ->] ->]. reflexivity.
  - intros H. injection H as -> -> -> -> ->. reflexivity.
Qed.


Lemma attribute_merge_ignores_iteration_order_witness :
  setAllInOrder [("role", AnyString "admin"); ("user_id", AnyString "123")] emptyContext
  = setAll sampleAttributes emptyContext
  /\ setAllInOrder [("user_id", AnyString "123"); ("role", AnyString "admin")] emptyContext
     = setAll sampleAttributes emptyContext.
Proof.
  split.
  - apply (attribute_merge_ignores_iteration_order sampleAttributes
             [("role", AnyString "admin"); ("user_id", AnyString "123")] emptyContext).
    vm_compute. apply perm_swap.
  - apply (attribute_merge_ignores_iteration_order sampleAttributes
             [("user_id", AnyString "123"); ("role", AnyString "admin")] emptyContext).
    vm_compute. reflexivity.
Defined.

Lemma auth_invalid_header_is_invalid_token_witness :
  map (fun r => (r.1, Message r.2))
      (responses (handle sampleMasked sampleJoin
                    (NewAuthMiddleware "Bearer" sampleCheck lastHandler)
                    (withHeader "Basic token123")).1)
  = [(401, "invalid token")].
Proof.
  destruct (auth_invalid_header_is_invalid_token sampleMasked sampleJoin sampleCheck
              lastHandler (withHeader "Basic token123"))
    as (_ & Hguard).
  - discriminate.
  - right. discriminate.
  - rewrite (Hguard eq_refl). reflexivity.
Defined.

Lemma auth_unknown_user_is_user_not_found_witness :
  map (fun r => (r.1, Message r.2))
      (responses (handle sampleMasked sampleJoin
                    (NewAuthMiddleware "Bearer" sampleCheck lastHandler)
                    (withHeader "Bearer invalid_token")).1)
  = [(401, "user not found")].
Proof.
  destruct (auth_unknown_user_is_user_not_found sampleMasked sampleJoin "Bearer" sampleCheck
              lastHandler (withHeader "Bearer invalid_token") "invalid_token" ∅
              eq_refl eq_refl)
    as (_ & Hguard).
  rewrite (Hguard eq_refl). reflexivity.
Defined.

Lemma auth_check_error_reaches_response_witness :
  map (fun r => (r.1, Message r.2))
      (responses (handle sampleMasked sampleJoin
                    (NewAuthMiddleware "Bearer"
                       (fun _ _ => (true, sampleAttributes,
                                    Some (AppErr (Ungerr.InternalServerError sampleMasked))))
                       lastHandler)
                    (withHeader "Bearer error_token")).1)
  = [(500, sampleMasked)]
  /\ Keys (NewAuthMiddleware "Bearer"
             (fun _ _ => (true, sampleAttributes,
                          Some (AppErr (Ungerr.InternalServerError sampleMasked))))
             lastHandler (withHeader "Bearer error_token")).1 = ∅.
Proof.
  destruct (auth_check_error_reaches_response sampleMasked sampleJoin "Bearer"
              (fun _ _ => (true, sampleAttributes,
                           Some (AppErr (Ungerr.InternalServerError sampleMasked))))
              lastHandler (withHeader "Bearer error_token") "error_token" true
              sampleAttributes (AppErr (Ungerr.InternalServerError sampleMasked))
              eq_refl eq_refl)
    as (Hm & Hguard).
  split.
  - rewrite (Hguard _ eq_refl eq_refl). reflexivity.
  - rewrite Hm. reflexivity.
Defined.

Lemma permission_missing_is_forbidden_witness :
  map (fun r => (r.1, Message r.2))
      (responses (handle sampleMasked sampleJoin
                    (NewPermissionMiddleware "role" "write" samplePermissions lastHandler)
                    (Set_ emptyContext "role" (AnyString "viewer"))).1)
  = [(403, "user does not have the required permission")].
Proof.
  destruct (permission_missing_is_forbidden sampleMasked sampleJoin "role" "write" "viewer"
              ["read"] samplePermissions lastHandler
              (Set_ emptyContext "role" (AnyString "viewer")))
    as (_ & Hguard).
  - reflexivity.
  - discriminate.
  - reflexivity.
  - simpl. intros [H|[]]. discriminate H.
  - rewrite (Hguard eq_refl). reflexivity.
Defined.

Lemma authenticated_role_decides_permission_witness :
  NewAuthMiddleware "Bearer" sampleCheck
    (NewPermissionMiddleware "role" "delete" samplePermissions lastHandler)
    (Set_ (withHeader "Bearer valid_token") "role" (AnyString "viewer"))
  = (setAll sampleAttributes
       (Set_ (withHeader "Bearer valid_token") "role" (AnyString "viewer")), None).
Proof.
  destruct (authenticated_role_decides_permission "Bearer" "role" "delete" "admin"
              sampleCheck samplePermissions ["read"; "write"; "delete"] lastHandler
              (Set_ (withHeader "Bearer valid_token") "role" (AnyString "viewer"))
              "valid_token" sampleAttributes eq_refl eq_refl eq_refl eq_refl
              ltac:(discriminate) eq_refl)
    as (Hgranted & _).
  apply Hgranted. simpl. auto.
Defined.

Lemma guard_is_silent_exactly_when_witness :
  (handle sampleMasked sampleJoin lastHandler emptyContext).1 = emptyContext.
Proof.
  apply (guard_is_silent_exactly_when sampleMasked sampleJoin lastHandler
           emptyContext emptyContext None eq_refl).
  left. split; reflexivity.
Defined.

Lemma never_wrapped_error_is_masked_witness :
  map (fun r => (r.1, Message r.2))
      (responses (handle sampleMasked sampleJoin
                    (fun c => (Error_ c io_EOF, None)) emptyContext).1)
  = [(500, sampleMasked)].
Proof.
  rewrite (never_wrapped_error_is_masked sampleMasked sampleJoin
             (fun c => (Error_ c io_EOF, None)) emptyContext
             (Error_ emptyContext io_EOF) [] io_EOF eq_refl eq_refl
             ltac:(discriminate) eq_refl).
  reflexivity.
Defined.

Lemma wrapped_typed_error_loses_its_status_witness :
  HttpStatus (constructAppError sampleMasked sampleJoin
                (Eris.Wrap (AppErr (Ungerr.NotFoundError "resource not found")) "lookup")
                emptyContext) = 500.
Proof.
  rewrite (wrapped_typed_error_loses_its_status sampleMasked sampleJoin
             (Ungerr.NotFoundError "resource not found") "lookup" emptyContext
             ltac:(discriminate) eq_refl eq_refl).
  reflexivity.
Defined.

Lemma nested_guard_repeats_error_response_witness :
  map (fun r => (r.1, Message r.2))
      (responses (handle sampleMasked sampleJoin
                    (handle sampleMasked sampleJoin
                       (fun c => (Error_ c (AppErr (Ungerr.BadRequestError "invalid input")),
                                  None)))
                    emptyContext).1)
  = [(400, "invalid input"); (400, "invalid input")].
Proof.
  destruct (nested_guard_repeats_error_response sampleMasked sampleJoin
              (fun c => (Error_ c (AppErr (Ungerr.BadRequestError "invalid input")), None))
              emptyContext
              (Error_ emptyContext (AppErr (Ungerr.BadRequestError "invalid input")))
              [] (AppErr (Ungerr.BadRequestError "invalid input"))
              eq_refl eq_refl eq_refl)
    as (response & Hone & Htwo).
  rewrite Htwo. injection Hone as <-. reflexivity.
Defined.

Lemma wrapped_handler_success_writes_envelope_witness :
  responses (handle sampleMasked sampleJoin
               (WrapHandler (fun c => (c, Returned 200 "ok" (AnyString "payload") None)))
               emptyContext).1
  = [(200, mkJSONResponse "ok" (AnyString "payload") None zeroPagination)].
Proof.
  destruct (wrapped_handler_success_writes_envelope sampleMasked sampleJoin
              (fun c => (c, Returned 200 "ok" (AnyString "payload") None))
              emptyContext emptyContext 200 "ok" (AnyString "payload")
              eq_refl eq_refl eq_refl)
    as (Hrun & _).
  rewrite Hrun. reflexivity.
Defined.

Lemma wrapped_handler_error_is_classified_witness :
  map (fun r => (r.1, Message r.2))
      (responses (handle sampleMasked sampleJoin
                    (WrapHandler (fun c => (c, Returned 200 "ok" (AnyString "payload")
                                                 (Some (Eris.Wrap io_EOF "reading body")))))
                    emptyContext).1)
  = [(400, "missing request body")].
Proof.
  destruct (wrapped_handler_error_is_classified sampleMasked sampleJoin
              (fun c => (c, Returned 200 "ok" (AnyString "payload")
                              (Some (Eris.Wrap io_EOF "reading body"))))
              emptyContext emptyContext 200 "ok" (AnyString "payload")
              (Eris.Wrap io_EOF "reading body") eq_refl eq_refl)
    as (a & Hresp & _ & Huntyped).
  rewrite Hresp, (Huntyped ltac:(discriminate)). reflexivity.
Defined.

Lemma bind_error_keeps_its_category_witness :
  exists err,
    BindRequest Z (fun _ => (0, Some (json_SyntaxError "invalid character"))) emptyContext "json"
      = (0, Some err)
    /\ constructAppError sampleMasked sampleJoin err emptyContext
       = Ungerr.BadRequestError "invalid json".
Proof.
  destruct (bind_error_keeps_its_category sampleMasked sampleJoin Z
              (fun _ => (0, Some (json_SyntaxError "invalid character")))
              emptyContext emptyContext "json" 0 KSyntaxError "invalid character" None
              eq_refl)
    as (err & Hb & _ & _ & Hsyntax & _).
  exists err. split; [exact Hb|exact (Hsyntax eq_refl)].
Defined.

Lemma context_value_round_trip_witness :
  GetFromContext string "" "string" assertString
    (Set_ emptyContext "user_id" (AnyString "12345")) "user_id" = ("12345", None).
Proof.
  apply (context_value_round_trip string "" "string" assertString emptyContext
           "user_id" (AnyString "12345") "12345" eq_refl).
Defined.

Lemma authenticated_attributes_are_readable_witness :
  exists ctx',
    NewAuthMiddleware "Bearer" sampleCheck lastHandler (withHeader "Bearer valid_token")
      = (ctx', None)
    /\ GetFromContext string "" "string" assertString ctx' "user_id" = ("123", None).
Proof.
  destruct (authenticated_attributes_are_readable string "" "string" assertString
              "Bearer" sampleCheck lastHandler (withHeader "Bearer valid_token")
              "valid_token" sampleAttributes eq_refl eq_refl eq_refl)
    as (ctx' & Hrun & Hread).
  exists ctx'. split; [exact Hrun|].
  apply (Hread "user_id" (AnyString "123") "123"); reflexivity.
Defined.
